(** * Women's Safety Alert API: a shallow embedding of [main.py] and
    [schemas.py], and the properties of its request handlers.

    The handlers are written in a small state-and-exception monad over a
    [World] that holds the process-wide [db] handle, the identifier
    generator and the trace of calls made to the document-store adapter.
    Documents are Python dictionaries, modelled as [gmap string Value]. *)

From Stdlib Require Import PrimFloat.
From Stdlib.Strings Require Import Byte Ascii.
From stdpp Require Import gmap strings list fin_maps.

Set Warnings "-register-all".
Local Open Scope string_scope.
Local Open Scope list_scope.

(* ================================================================== *)
(** ** bson.ObjectId: the bytes of an identifier and its hex text       *)
(* ================================================================== *)

Record ObjectId := mkObjectId { binary : list byte }.

#[global] Instance byte_eq_decision : EqDecision byte := byte_eq_dec.

#[global] Instance ObjectId_eq_decision : EqDecision ObjectId.
Proof. solve_decision. Defined.

Definition hexdigit (n : N) : ascii :=
  match n with
  | 0 => "0" | 1 => "1" | 2 => "2" | 3 => "3" | 4 => "4" | 5 => "5"
  | 6 => "6" | 7 => "7" | 8 => "8" | 9 => "9" | 10 => "a" | 11 => "b"
  | 12 => "c" | 13 => "d" | 14 => "e" | _ => "f"
  end%N%char.

Definition unhexdigit (c : ascii) : option N :=
  let n := N_of_ascii c in
  if bool_decide (48 ≤ n ≤ 57)%N then Some (n - 48)%N
  else if bool_decide (97 ≤ n ≤ 102)%N then Some (n - 87)%N
  else if bool_decide (65 ≤ n ≤ 70)%N then Some (n - 55)%N
  else None.

(** [bytes.hex()] *)
Fixpoint hex (bs : list byte) : string :=
  match bs with
  | [] => ""
  | b :: bs' =>
      let n := Byte.to_N b in
      String (hexdigit (n / 16)) (String (hexdigit (n mod 16)) (hex bs'))
  end.

(** The characters [bytes.fromhex] skips: ASCII whitespace, which is
    the space and the five control characters from tab to carriage
    return. *)
Definition is_ascii_space (c : ascii) : bool :=
  let n := N_of_ascii c in
  bool_decide (9 ≤ n ≤ 13)%N || bool_decide (n = 32)%N.

(** [bytes.fromhex(s)]: two hex digits per byte; whitespace is skipped
    before a byte and at the end, never between the two digits of a
    byte. [None] stands for the [ValueError] it raises. *)
Fixpoint fromhex (s : string) : option (list byte) :=
  match s with
  | "" => Some []
  | String c1 rest =>
      if is_ascii_space c1 then fromhex rest
      else
        match rest with
        | "" => None
        | String c2 rest =>
            h ← unhexdigit c1;
            l ← unhexdigit c2;
            b ← Byte.of_N (16 * h + l);
            bs ← fromhex rest;
            Some (b :: bs)
        end
  end.

(** [ObjectId(s)] for a [str] argument: the string has twenty-four
    characters and [bytes.fromhex] reads it; anything else raises
    [InvalidId]. The constructor keeps what [bytes.fromhex] returns, so
    a string of twenty-four characters some of which are whitespace
    gives an identifier of fewer than twelve bytes. A string is held as
    its bytes: one with a character outside ASCII is refused by
    [bytes.fromhex] in the source and here, whatever its length. *)
Definition ObjectId_of_str (s : string) : option ObjectId :=
  if bool_decide (String.length s = 24%nat) then mkObjectId <$> fromhex s
  else None.

(** [str(oid)] *)
Definition ObjectId_str (o : ObjectId) : string := hex (binary o).

(** The [n]-th identifier the process generates: twelve bytes, big endian.
    (The driver's generator mixes a timestamp, a random value and a
    counter; only that successive identifiers differ is kept here.) *)
Definition ObjectId_generate (n : N) : ObjectId :=
  mkObjectId
    (map (λ i, default "000"%byte (Byte.of_N ((n / 256 ^ i) mod 256)%N))
         [11; 10; 9; 8; 7; 6; 5; 4; 3; 2; 1; 0]%N).

(* ================================================================== *)
(** ** Values and documents                                             *)
(* ================================================================== *)

(** The Python/BSON values that occur in stored documents. An embedded
    document keeps the order of its fields, as BSON does. *)
Inductive Value :=
| VNone
| VStr (s : string)
| VFloat (f : float)
| VOid (o : ObjectId)
| VList (l : list Value)
| VDict (kvs : list (string * Value)).

(** A top-level document or response body: a Python [dict]. *)
Abbreviation Doc := (gmap string Value).

(** [dict(kvs)] *)
Definition dict (kvs : list (string * Value)) : Doc := list_to_map kvs.

(** Python truthiness, as used by [if x], [not x] and [x or y]. *)
Definition truthy (v : Value) : bool :=
  match v with
  | VNone => false
  | VStr s => negb (bool_decide (s = ""))
  | VFloat f => negb (PrimFloat.eqb f 0%float)
  | VOid _ => true
  | VList l => negb (bool_decide (l = []))
  | VDict kvs => negb (bool_decide (kvs = []))
  end.

(** [d.get(k)]: [None] when the key is absent. *)
Definition dict_get (d : Doc) (k : string) : Value := default VNone (d !! k).

(** [d.get(k, dflt)] *)
Definition dict_get_default (d : Doc) (k : string) (dflt : Value) : Value :=
  default dflt (d !! k).

(** [s != v] for a [str] on the left. *)
Definition str_ne (s : string) (v : Value) : bool :=
  match v with
  | VStr t => negb (bool_decide (s = t))
  | _ => true
  end.

(** Equality of BSON values, as a filter compares them. *)
Fixpoint value_eqb (a b : Value) : bool :=
  match a, b with
  | VNone, VNone => true
  | VStr s, VStr t => bool_decide (s = t)
  | VFloat f, VFloat g => PrimFloat.eqb f g
  | VOid o, VOid p => bool_decide (o = p)
  | VList l, VList m =>
      (fix go (l m : list Value) : bool :=
         match l, m with
         | [], [] => true
         | x :: l', y :: m' => value_eqb x y && go l' m'
         | _, _ => false
         end) l m
  | VDict k, VDict k' =>
      (fix go (l m : list (string * Value)) : bool :=
         match l, m with
         | [], [] => true
         | (i, x) :: l', (j, y) :: m' =>
             bool_decide (i = j) && value_eqb x y && go l' m'
         | _, _ => false
         end) k k'
  | _, _ => false
  end.

(* ================================================================== *)
(** ** The world a handler runs in                                      *)
(* ================================================================== *)

(** A database: collection name to the documents of the collection, in
    insertion order. [db[name]] of an unknown name is an empty collection. *)
Abbreviation Database := (gmap string (list Doc)).

Definition collection (d : Database) (name : string) : list Doc :=
  default [] (d !! name).

(** A filter is a dictionary of required field values. *)
Abbreviation Filter := (list (string * Value)).

(** Calls made to the store, in the order they are issued. *)
Inductive StoreCall :=
| CallCreate (collection_name : string) (data : Doc)
| CallFind (collection_name : string) (filter_dict : Filter)
| CallUpdateOne (collection_name : string) (filter_dict : Filter) (set : Filter).

Record World := mkWorld {
  db : option Database;        (* the module-global [db]; [None] when not connected *)
  next_oid : N;                (* state of the identifier generator *)
  calls : list StoreCall       (* every store call issued so far *)
}.

(** One entry of a request-validation error. *)
Inductive LocItem := Field (name : string) | Index (i : nat).
Inductive ErrorType := missing | string_type | list_type | model_type | value_error.
Record ErrorDetail := mkError { loc : list LocItem; type : ErrorType }.

Inductive Exn :=
| HTTPException (status_code : Z) (detail : string)
| RequestValidationError (errors : list ErrorDetail)
| StoreUnavailable.

(** The status the framework answers with. *)
Definition response_status (e : Exn) : Z :=
  match e with
  | HTTPException c _ => c
  | RequestValidationError _ => 422
  | StoreUnavailable => 500
  end.

(** A computation that may raise and that changes the world; what was
    done before an exception stays done. *)
Definition M (A : Type) : Type := World → (Exn + A) * World.

#[global] Instance M_ret : MRet M := λ A x w, (inr x, w).
#[global] Instance M_bind : MBind M := λ A B f m w,
  match m w with
  | (inl e, w') => (inl e, w')
  | (inr x, w') => f x w'
  end.

Definition raise {A} (e : Exn) : M A := λ w, (inl e, w).

(** [for x in l: body(x)] *)
Fixpoint for_each {A} (l : list A) (body : A → M ()) : M () :=
  match l with
  | [] => mret ()
  | x :: l' => _ ← body x; for_each l' body
  end.

(** [ObjectId()] with no argument: a newly generated identifier. *)
Definition ObjectId_new : M ObjectId := λ w,
  (inr (ObjectId_generate (next_oid w)),
   mkWorld (db w) (next_oid w + 1) (calls w)).

Definition issue (c : StoreCall) : M () := λ w,
  (inr (), mkWorld (db w) (next_oid w) (calls w ++ [c])%list).

Definition get_db : M (option Database) := λ w, (inr (db w), w).

Definition put_db (d : Database) : M () := λ w,
  (inr (), mkWorld (Some d) (next_oid w) (calls w)).

(* ================================================================== *)
(** ** The document store adapter                                       *)
(* ================================================================== *)

(** A document satisfies a filter when it has every field of the filter
    with an equal value. *)
Definition matches (flt : Filter) (d : Doc) : bool :=
  forallb (λ kv, match d !! kv.1 with
                 | Some v => value_eqb kv.2 v
                 | None => false
                 end) flt.

(** Modelled from the spec: [database.create_document], of the missing
    module [database]. It persists the record into the named collection
    and returns a newly generated unique identifier, in string form; when
    the store is not available the operation fails. The stored document
    carries the identifier under ["_id"], where [main.py] reads it. *)
Definition create_document (collection_name : string) (data : Doc) : M string :=
  _ ← issue (CallCreate collection_name data);
  d ← get_db;
  match d with
  | None => raise StoreUnavailable
  | Some d =>
      oid ← ObjectId_new;
      _ ← put_db (<[collection_name :=
                      (collection d collection_name ++ [<["_id" := VOid oid]> data])%list]> d);
      mret (ObjectId_str oid)
  end.

(** The documents of a collection that satisfy a filter. The store
    promises no order for them; they are taken in the order of the
    collection, and what is stated of a listing below is stated up to
    the order of its records. *)
Definition find_documents (d : Database) (collection_name : string)
    (filter_dict : Filter) : list Doc :=
  filter (λ doc, matches filter_dict doc = true) (collection d collection_name).

(** Modelled from the spec: [database.get_documents], of the missing
    module [database]. It returns all records of the collection whose
    fields match the filter's key/value equality constraints; when the
    store is not available the operation fails. *)
Definition get_documents (collection_name : string) (filter_dict : Filter)
  : M (list Doc) :=
  _ ← issue (CallFind collection_name filter_dict);
  d ← get_db;
  match d with
  | None => raise StoreUnavailable
  | Some d => mret (find_documents d collection_name filter_dict)
  end.

(** [{"$set": fields}] applied to a document. *)
Definition apply_set (fields : Filter) (doc : Doc) : Doc :=
  foldl (λ acc kv, <[kv.1 := kv.2]> acc) doc fields.

(** The first document that satisfies the filter is replaced. *)
Fixpoint update_first (flt : Filter) (f : Doc → Doc) (docs : list Doc) : list Doc :=
  match docs with
  | [] => []
  | doc :: rest =>
      if matches flt doc then f doc :: rest
      else doc :: update_first flt f rest
  end.

(** [d[collection_name].update_one(filter_dict, {"$set": fields})] on a
    connected database [d]. *)
Definition update_one (d : Database) (collection_name : string)
    (filter_dict fields : Filter) : M () :=
  _ ← issue (CallUpdateOne collection_name filter_dict fields);
  put_db (<[collection_name :=
              update_first filter_dict (apply_set fields)
                           (collection d collection_name)]> d).

(* ================================================================== *)
(** ** schemas.py and the request models of main.py                     *)
(* ================================================================== *)

(** The default of [User.default_message], which [create_alert] repeats
    as the default of its [user.get]. *)
Definition DEFAULT_MESSAGE : string :=
  "I need help. This is an emergency. Please check my location and contact me immediately.".

Definition of_optional {A} (f : A → Value) (o : option A) : Value :=
  match o with
  | Some x => f x
  | None => VNone
  end.

Module User.
Record t := mk {
  name : string;
  phone : string;
  email : option string;
  default_message : string;
  pin : option string
}.
Definition model_dump (u : t) : list (string * Value) :=
  [("name", VStr (name u)); ("phone", VStr (phone u));
   ("email", of_optional VStr (email u));
   ("default_message", VStr (default_message u));
   ("pin", of_optional VStr (pin u))].
End User.

Module Contact.
Record t := mk {
  user_id : string;
  name : string;
  phone : option string;
  email : option string
}.
Definition model_dump (c : t) : list (string * Value) :=
  [("user_id", VStr (user_id c)); ("name", VStr (name c));
   ("phone", of_optional VStr (phone c));
   ("email", of_optional VStr (email c))].
End Contact.

Module Location.
Record t := mk { lat : float; lng : float; accuracy : option float }.
Definition model_dump (l : t) : list (string * Value) :=
  [("lat", VFloat (lat l)); ("lng", VFloat (lng l));
   ("accuracy", of_optional VFloat (accuracy l))].
End Location.

(** [class RegisterUserRequest(User)]: the fields of [User], then
    [contacts]. *)
Module RegisterUserRequest.
Record t := mk {
  user : User.t;
  contacts : option (list Contact.t)
}.
Definition model_dump (r : t) : list (string * Value) :=
  (User.model_dump (user r) ++
   [("contacts",
     of_optional (λ cs, VList (map (λ c, VDict (Contact.model_dump c)) cs))
                 (contacts r))])%list.
End RegisterUserRequest.

Module CreateAlertRequest.
Record t := mk {
  user_id : string;
  message : option string;
  location : option Location.t
}.
End CreateAlertRequest.

Module CancelAlertRequest.
Record t := mk {
  alert_id : string;
  pin : option string
}.
End CancelAlertRequest.

(* ================================================================== *)
(** ** Validation of a registration body against the schema             *)
(* ================================================================== *)

Inductive JSON :=
| JNull
| JBool (b : bool)
| JNumber (f : float)
| JString (s : string)
| JArray (items : list JSON)
| JObject (members : list (string * JSON)).

(** The value of a member of a JSON object; a repeated name keeps its
    last value. *)
Definition member (k : string) (members : list (string * JSON)) : option JSON :=
  snd <$> find (λ kv, bool_decide (kv.1 = k)) (reverse members).

(** The outcome of validation: every error found, or the model. *)
Definition Validated (A : Type) : Type := list ErrorDetail + A.

Definition vap {A B} (f : Validated (A → B)) (x : Validated A) : Validated B :=
  match f, x with
  | inr f, inr x => inr (f x)
  | inl e, inl e' => inl (e ++ e')%list
  | inl e, inr _ => inl e
  | inr _, inl e => inl e
  end.

Section Validation.

(** The check behind the [EmailStr] type, of the library: the normalised
    address, or [None] for a string that is not an address. *)
Variable EmailStr : string → option string.

(** A field [x: str = Field(...)] *)
Definition required_str (at_ : list LocItem) (v : option JSON) : Validated string :=
  match v with
  | None => inl [mkError at_ missing]
  | Some (JString s) => inr s
  | Some _ => inl [mkError at_ string_type]
  end.

(** A field [x: str = Field(dflt)] *)
Definition defaulted_str (dflt : string) (at_ : list LocItem) (v : option JSON)
  : Validated string :=
  match v with
  | None => inr dflt
  | Some (JString s) => inr s
  | Some _ => inl [mkError at_ string_type]
  end.

(** A field [x: Optional[str] = Field(None)] *)
Definition optional_str (at_ : list LocItem) (v : option JSON)
  : Validated (option string) :=
  match v with
  | None | Some JNull => inr None
  | Some (JString s) => inr (Some s)
  | Some _ => inl [mkError at_ string_type]
  end.

(** A field [x: Optional[EmailStr] = Field(None)] *)
Definition optional_email (at_ : list LocItem) (v : option JSON)
  : Validated (option string) :=
  match v with
  | None | Some JNull => inr None
  | Some (JString s) =>
      match EmailStr s with
      | Some e => inr (Some e)
      | None => inl [mkError at_ value_error]
      end
  | Some _ => inl [mkError at_ string_type]
  end.

Definition validate_User_fields (at_ : list LocItem) (m : list (string * JSON))
  : Validated User.t :=
  vap (vap (vap (vap (vap (inr User.mk)
    (required_str (at_ ++ [Field "name"]) (member "name" m)))
    (required_str (at_ ++ [Field "phone"]) (member "phone" m)))
    (optional_email (at_ ++ [Field "email"]) (member "email" m)))
    (defaulted_str DEFAULT_MESSAGE (at_ ++ [Field "default_message"])
                   (member "default_message" m)))
    (optional_str (at_ ++ [Field "pin"]) (member "pin" m)).

Definition validate_Contact (at_ : list LocItem) (j : JSON) : Validated Contact.t :=
  match j with
  | JObject m =>
      vap (vap (vap (vap (inr Contact.mk)
        (required_str (at_ ++ [Field "user_id"]) (member "user_id" m)))
        (required_str (at_ ++ [Field "name"]) (member "name" m)))
        (optional_str (at_ ++ [Field "phone"]) (member "phone" m)))
        (optional_email (at_ ++ [Field "email"]) (member "email" m))
  | _ => inl [mkError at_ model_type]
  end.

(** The items of a [List[Contact]], item [i] reported at [at_ ++ [Index i]]. *)
Fixpoint validate_Contacts (at_ : list LocItem) (i : nat) (items : list JSON)
  : Validated (list Contact.t) :=
  match items with
  | [] => inr []
  | j :: items' =>
      vap (vap (inr cons) (validate_Contact (at_ ++ [Index i]) j))
          (validate_Contacts at_ (S i) items')
  end.

(** A field [contacts: Optional[List[Contact]] = None] *)
Definition optional_contacts (at_ : list LocItem) (v : option JSON)
  : Validated (option (list Contact.t)) :=
  match v with
  | None | Some JNull => inr None
  | Some (JArray items) => vap (inr Some) (validate_Contacts at_ 0 items)
  | Some _ => inl [mkError at_ list_type]
  end.

Definition validate_RegisterUserRequest (body : JSON)
  : Validated RegisterUserRequest.t :=
  match body with
  | JObject m =>
      vap (vap (inr RegisterUserRequest.mk)
        (validate_User_fields [Field "body"] m))
        (optional_contacts [Field "body"; Field "contacts"] (member "contacts" m))
  | _ => inl [mkError [Field "body"] model_type]
  end.

End Validation.

(* ================================================================== *)
(** ** main.py: helpers and endpoints                                   *)
(* ================================================================== *)

(** [ensure_objectid]. The argument is annotated [str], and
    [cancel_alert] also passes what a stored alert has under ["user_id"]:
    [ObjectId(None)] generates an identifier, [ObjectId(oid)] copies one,
    and a value of any other type raises, like a string that
    [ObjectId_of_str] refuses. Whatever [ObjectId] raises is answered
    400. *)
Definition ensure_objectid (id_str : Value) : M ObjectId :=
  match id_str with
  | VStr s =>
      match ObjectId_of_str s with
      | Some oid => mret oid
      | None => raise (HTTPException 400 "Invalid ID format")
      end
  | VOid oid => mret oid
  | VNone => ObjectId_new
  | _ => raise (HTTPException 400 "Invalid ID format")
  end.

(** [a or b] *)
Definition py_or (a b : Value) : Value := if truthy a then a else b.

(** [{**c.model_dump(), "user_id": user_id}] *)
Definition contact_document (user_id : string) (c : Contact.t) : Doc :=
  <["user_id" := VStr user_id]> (dict (Contact.model_dump c)).

(** The body of the loop over [payload.contacts]: the identifier that
    [create_document] returns is dropped. *)
Definition insert_contact (user_id : string) (c : Contact.t) : M () :=
  _ ← create_document "contact" (contact_document user_id c);
  mret ().

(** The body of the POST /api/register handler. *)
Definition register_user (payload : RegisterUserRequest.t) : M Doc :=
  user_id ← create_document "user" (dict (RegisterUserRequest.model_dump payload));
  _ ← match RegisterUserRequest.contacts payload with
      | Some ((_ :: _) as contacts) =>
          for_each contacts (insert_contact user_id)
      | _ => mret ()
      end;
  mret (dict [("user_id", VStr user_id)]).

(** POST /api/register: the framework validates the body against
    [RegisterUserRequest] and answers 422 without calling the handler
    when it does not conform. *)
Definition post_register (EmailStr : string → option string) (body : JSON)
  : M Doc :=
  match validate_RegisterUserRequest EmailStr body with
  | inl errors => raise (RequestValidationError errors)
  | inr payload => register_user payload
  end.

Section Listing.

(** [str(v)] of a value that is neither an identifier, a string nor
    [None] (a float, a list, a dictionary), of the language. *)
Variable repr : Value → string.

Definition str_ (v : Value) : string :=
  match v with
  | VOid oid => ObjectId_str oid
  | VStr s => s
  | VNone => "None"
  | _ => repr v
  end.

(** [c["_id"] = str(c["_id"]) if "_id" in c else None] *)
Definition coerce_id (c : Doc) : Doc :=
  <["_id" := match c !! "_id" with
             | Some v => VStr (str_ v)
             | None => VNone
             end]> c.

(** GET /api/contacts/{user_id} *)
Definition list_contacts (user_id : string) : M (list Doc) :=
  _ ← ensure_objectid (VStr user_id);
  contacts ← get_documents "contact" [("user_id", VStr user_id)];
  mret (map coerce_id contacts).

(** GET /api/alerts/{user_id} *)
Definition list_alerts (user_id : string) : M (list Doc) :=
  _ ← ensure_objectid (VStr user_id);
  alerts ← get_documents "alert" [("user_id", VStr user_id)];
  mret (map coerce_id alerts).

End Listing.

(** The [alert_data] dictionary that [create_alert] builds for the
    request and the [user] it has loaded, [message] included. *)
Definition alert_data (payload : CreateAlertRequest.t) (user : Doc) : Doc :=
  let message :=
    py_or (of_optional VStr (CreateAlertRequest.message payload))
          (dict_get_default user "default_message" (VStr DEFAULT_MESSAGE)) in
  dict [("user_id", VStr (CreateAlertRequest.user_id payload));
        ("message", message);
        ("location",
         of_optional (λ l, VDict (Location.model_dump l))
                     (CreateAlertRequest.location payload));
        ("status", VStr "active");
        ("share_url", VNone)].

(** POST /api/alerts *)
Definition create_alert (payload : CreateAlertRequest.t) : M Doc :=
  let user_id := CreateAlertRequest.user_id payload in
  _ ← ensure_objectid (VStr user_id);
  oid ← ensure_objectid (VStr user_id);
  users ← get_documents "user" [("_id", VOid oid)];
  match users with
  | [] => raise (HTTPException 404 "User not found")
  | user :: _ =>
      alert_id ← create_document "alert" (alert_data payload user);
      mret (dict [("alert_id", VStr alert_id); ("status", VStr "active")])
  end.

(** [not payload.pin or payload.pin != user.get("pin")] *)
Definition pin_rejected (pin : option string) (stored : Value) : bool :=
  negb (truthy (of_optional VStr pin))
  || match pin with
     | Some p => str_ne p stored
     | None => negb (value_eqb VNone stored)
     end.

(** POST /api/alerts/cancel *)
Definition cancel_alert (payload : CancelAlertRequest.t) : M Doc :=
  let alert_id := CancelAlertRequest.alert_id payload in
  _ ← ensure_objectid (VStr alert_id);
  aid ← ensure_objectid (VStr alert_id);
  alerts ← get_documents "alert" [("_id", VOid aid)];
  match alerts with
  | [] => raise (HTTPException 404 "Alert not found")
  | alert :: _ =>
      uid ← ensure_objectid (dict_get alert "user_id");
      users ← get_documents "user" [("_id", VOid uid)];
      let user := head users in
      _ ← match user with
          | Some user =>
              if negb (bool_decide (user = ∅)) && truthy (dict_get user "pin") then
                if pin_rejected (CancelAlertRequest.pin payload) (dict_get user "pin")
                then raise (HTTPException 403 "Invalid PIN")
                else mret ()
              else mret ()
          | None => mret ()
          end;
      d ← get_db;
      match d with
      | None => raise (HTTPException 500 "Database not available")
      | Some d =>
          aid' ← ensure_objectid (VStr alert_id);
          _ ← update_one d "alert" [("_id", VOid aid')] [("status", VStr "canceled")];
          mret (dict [("alert_id", VStr alert_id); ("status", VStr "canceled")])
      end
  end.

(* ================================================================== *)
(** ** Definitions used to state the properties                        *)
(* ================================================================== *)

(** The world after one more store call. *)
Definition logged (c : StoreCall) (w : World) : World :=
  mkWorld (db w) (next_oid w) (calls w ++ [c]).

(** What [ObjectId(v)] returns, [None] when it raises; [next] is the
    state of the generator. *)
Definition accepted_id (next : N) (v : Value) : option ObjectId :=
  match v with
  | VStr s => ObjectId_of_str s
  | VOid oid => Some oid
  | VNone => Some (ObjectId_generate next)
  | _ => None
  end.

(** The world after [ObjectId(v)] has returned. *)
Definition after_id (v : Value) (w : World) : World :=
  match v with
  | VNone => mkWorld (db w) (next_oid w + 1) (calls w)
  | _ => w
  end.

(** Whether the PIN check of [cancel_alert] raises, for the [user] that
    was loaded and the [pin] of the request. *)
Definition pin_blocks (user : option Doc) (pin : option string) : bool :=
  match user with
  | Some user =>
      negb (bool_decide (user = ∅)) && truthy (dict_get user "pin")
      && pin_rejected pin (dict_get user "pin")
  | None => false
  end.

Definition is_read (c : StoreCall) : Prop :=
  match c with
  | CallFind _ _ => True
  | _ => False
  end.

(** The contact documents that registration stores for [cs], the first
    of them under the [n]-th generated identifier. *)
Fixpoint stored_contacts (user_id : string) (n : N) (cs : list Contact.t) : list Doc :=
  match cs with
  | [] => []
  | c :: cs' =>
      <["_id" := VOid (ObjectId_generate n)]> (contact_document user_id c)
      :: stored_contacts user_id (n + 1) cs'
  end.

(** What a listed record says of the contact: its name, phone and
    email. *)
Definition contact_fields (r : Doc) : option Value * option Value * option Value :=
  (r !! "name", r !! "phone", r !! "email").

(** The same of a submitted contact. *)
Definition submitted_fields (c : Contact.t) : option Value * option Value * option Value :=
  (Some (VStr (Contact.name c)),
   Some (of_optional VStr (Contact.phone c)),
   Some (of_optional VStr (Contact.email c))).

(** Two answers of a listing that show the same records, in whatever
    order, or the same failure. *)
Definition same_listing (a b : Exn + list Doc) : Prop :=
  match a, b with
  | inr l, inr l' => l ≡ₚ l'
  | inl e, inl e' => e = e'
  | _, _ => False
  end.

(** [after] has the records of [before], in whatever order, each as it
    was or with ["status"] set to "canceled". *)
Definition canceled_in (before after : list Doc) : Prop :=
  ∃ changed,
    after ≡ₚ changed
    ∧ Forall2 (λ b a, a = b ∨ a = <["status" := VStr "canceled"]> b)
              before changed.

(* ================================================================== *)
(** ** Sample requests and worlds                                       *)
(* ================================================================== *)

(** An address check that accepts every string, and a [repr] that is
    never consulted: the samples hold no address and no identifier that
    is not an [ObjectId]. *)
Definition any_address (s : string) : option string := Some s.
Definition no_repr (v : Value) : string := "".

(** A connected, empty store. *)
Definition empty_world : World := mkWorld (Some ∅) 0 [].

(** Registration of a user with PIN 1234 and two contacts. *)
Definition sample_body : JSON :=
  JObject [("name", JString "A"); ("phone", JString "555"); ("pin", JString "1234");
           ("contacts",
            JArray [JObject [("user_id", JString "x"); ("name", JString "B")];
                    JObject [("user_id", JString "y"); ("name", JString "C");
                             ("phone", JString "1")]])].

Definition sample_payload : RegisterUserRequest.t :=
  RegisterUserRequest.mk
    (User.mk "A" "555" None DEFAULT_MESSAGE (Some "1234"))
    (Some [Contact.mk "x" "B" None None; Contact.mk "y" "C" (Some "1") None]).

Definition registered_world : World :=
  snd (post_register any_address sample_body empty_world).

Definition registered_db : Database := default ∅ (db registered_world).

Definition sample_user_id : string := "000000000000000000000000".

(** The world after the registered user has raised an alert. *)
Definition alerted_world : World :=
  snd (create_alert (CreateAlertRequest.mk sample_user_id None None) registered_world).

Definition alerted_db : Database := default ∅ (db alerted_world).

Definition sample_alert_id : string := "000000000000000000000003".

Definition sample_alert : Doc :=
  default ∅ (head (collection alerted_db "alert")).

Definition sample_user : Doc :=
  default ∅ (head (collection alerted_db "user")).


(** A registration body whose contact entry has no ["user_id"]. *)
Definition body_without_contact_user_id : JSON :=
  JObject [("name", JString "A"); ("phone", JString "555");
           ("contacts", JArray [JObject [("name", JString "B")]])].

(** A registration body whose pin is not made of digits. *)
Definition body_with_pin (pin : string) : JSON :=
  JObject [("name", JString "A"); ("phone", JString "555"); ("pin", JString pin)].

(** A store with one alert, whose ["user_id"] is [owner], and no user. *)
Definition orphan_alert (owner : Value) (status : string) : Doc :=
  dict [("_id", VOid (ObjectId_generate 0)); ("user_id", owner);
        ("message", VStr "help"); ("location", VNone);
        ("status", VStr status); ("share_url", VNone)].

Definition orphan_db (owner : Value) (status : string) : Database :=
  {["alert" := [orphan_alert owner status]]}.

Definition orphan_world (owner : Value) (status : string) : World :=
  mkWorld (Some (orphan_db owner status)) 1 [].

(** A store with one user document that has no ["default_message"]. *)
Definition legacy_user : Doc :=
  dict [("_id", VOid (ObjectId_generate 0)); ("name", VStr "A"); ("phone", VStr "555")].

Definition legacy_db : Database := {["user" := [legacy_user]]}.

Definition legacy_world : World := mkWorld (Some legacy_db) 1 [].

(* ================================================================== *)
(** ** The diagnostic endpoint, and further samples                    *)
(* ================================================================== *)

(** What [test_database] reads of the database object when [db] is not
    [None]: its name, when it has one, and what listing its collections
    gives, the names or the text [str(e)] of the exception raised. *)
Record Handle := mkHandle {
  handle_name : option string;
  list_collection_names : string + list string
}.

(** [bool(os.getenv(name))] *)
Definition env_is_set (getenv : string → option string) (name : string) : bool :=
  match getenv name with
  | Some value => negb (bool_decide (value = ""))
  | None => false
  end.

(** A [str] is a sequence of characters, held here as the bytes of its
    UTF-8 text: a character is one byte that is not a continuation byte
    (a byte from 128 to 191), followed by its continuation bytes. *)
Definition is_continuation (c : ascii) : bool :=
  bool_decide (128 ≤ N_of_ascii c < 192)%N.

(** [len(s)], the number of characters. *)
Fixpoint str_len (s : string) : nat :=
  match s with
  | "" => 0
  | String c rest =>
      if is_continuation c then str_len rest else S (str_len rest)
  end.

(** [s[:n]], the first [n] characters. *)
Fixpoint str_take (n : nat) (s : string) : string :=
  match s with
  | "" => ""
  | String c rest =>
      if is_continuation c then String c (str_take n rest)
      else
        match n with
        | O => ""
        | S n' => String c (str_take n' rest)
        end
  end.

(** GET /test, for the module's [db] and the process environment. The
    outer handler of the source has nothing to catch on such a handle
    and is left out. *)
Definition test_database (db : option Handle) (getenv : string → option string) : Doc :=
  let response :=
    dict [("backend", VStr "✅ Running");
          ("database", VStr "❌ Not Available");
          ("database_url", VNone);
          ("database_name", VNone);
          ("connection_status", VStr "Not Connected");
          ("collections", VList [])] in
  let response :=
    match db with
    | Some handle =>
        let response := <["database" := VStr "✅ Available"]> response in
        let response := <["database_url" := VStr "✅ Configured"]> response in
        let response :=
          <["database_name" := VStr (default "✅ Connected" (handle_name handle))]>
            response in
        let response := <["connection_status" := VStr "Connected"]> response in
        match list_collection_names handle with
        | inr collections =>
            let response :=
              <["collections" := VList (VStr <$> take 10 collections)]> response in
            <["database" := VStr "✅ Connected & Working"]> response
        | inl e =>
            <["database" :=
                VStr ("⚠️  Connected but Error: " +:+ str_take 50 e)]>
              response
        end
    | None => <["database" := VStr "⚠️  Available but not initialized"]> response
    end in
  let response :=
    <["database_url" :=
        VStr (if env_is_set getenv "DATABASE_URL" then "✅ Set" else "❌ Not Set")]>
      response in
  <["database_name" :=
      VStr (if env_is_set getenv "DATABASE_NAME" then "✅ Set" else "❌ Not Set")]>
    response.

(** [w'] is [w] after at most one store call, a read: the database and
    the identifier generator are the same. *)
Definition reads_only (w w' : World) : Prop :=
  db w' = db w
  ∧ next_oid w' = next_oid w
  ∧ ∃ reads, calls w' = calls w ++ reads
             ∧ Forall is_read reads ∧ (length reads ≤ 1)%nat.

(** A small store: a user whose PIN is 1234, one contact of that user and
    one alert of that user, already "resolved". *)
Definition tiny_user : Doc :=
  dict [("_id", VOid (ObjectId_generate 0)); ("pin", VStr "1234")].

Definition tiny_contact : Doc :=
  dict [("_id", VOid (ObjectId_generate 1)); ("user_id", VStr sample_user_id)].

Definition tiny_alert : Doc :=
  dict [("_id", VOid (ObjectId_generate 2)); ("user_id", VStr sample_user_id);
        ("status", VStr "resolved")].

Definition tiny_db : Database :=
  <["user" := [tiny_user]]>
    (<["contact" := [tiny_contact]]> (<["alert" := [tiny_alert]]> ∅)).

Definition tiny_world : World := mkWorld (Some tiny_db) 3 [].

(* ================================================================== *)
(** * Properties                                                        *)
(* ================================================================== *)

(** ** Identifiers *)

Lemma hex_length bs : String.length (hex bs) = (2 * length bs)%nat.
Proof. induction bs as [|b bs IH]; simpl; [done | lia]. Qed.

Lemma fromhex_hex_byte b s :
  fromhex (String (hexdigit (Byte.to_N b / 16))
             (String (hexdigit (Byte.to_N b mod 16)) s))
  = bs ← fromhex s; Some (b :: bs).
Proof. destruct b; reflexivity. Qed.

Lemma fromhex_hex bs : fromhex (hex bs) = Some bs.
Proof.
  induction bs as [|b bs IH]; [done |].
  cbn [hex]. rewrite fromhex_hex_byte, IH. done.
Qed.

(** An identifier of twelve bytes is read back from its string form. *)
Lemma ObjectId_of_str_str o :
  length (binary o) = 12%nat → ObjectId_of_str (ObjectId_str o) = Some o.
Proof.
  intros Hlen. unfold ObjectId_of_str, ObjectId_str.
  rewrite hex_length, Hlen, bool_decide_eq_true_2 by done.
  rewrite fromhex_hex. by destruct o.
Qed.

Lemma ObjectId_generate_length n : length (binary (ObjectId_generate n)) = 12%nat.
Proof. done. Qed.

Lemma ObjectId_of_str_generate n :
  ObjectId_of_str (ObjectId_str (ObjectId_generate n)) = Some (ObjectId_generate n).
Proof. apply ObjectId_of_str_str, ObjectId_generate_length. Qed.

(** ** Running the monad *)

Lemma bind_run {A B} (m : M A) (f : A → M B) (w : World) :
  (m ≫= f) w = match m w with
               | (inl e, w') => (inl e, w')
               | (inr x, w') => f x w'
               end.
Proof. done. Qed.

(** Unfold the operations of the monad in the goal. *)
Ltac run_monad :=
  cbv [mbind M_bind mret M_ret raise issue get_db put_db ObjectId_new];
  cbn [db next_oid calls].

Lemma get_documents_run c flt w d :
  db w = Some d →
  get_documents c flt w = (inr (find_documents d c flt), logged (CallFind c flt) w).
Proof.
  intros Hd. unfold get_documents, logged. run_monad. by rewrite Hd.
Qed.

Lemma get_documents_unavailable c flt w :
  db w = None →
  get_documents c flt w = (inl StoreUnavailable, logged (CallFind c flt) w).
Proof.
  intros Hd. unfold get_documents, logged. run_monad. by rewrite Hd.
Qed.

Lemma create_document_run c data w d :
  db w = Some d →
  create_document c data w =
    (inr (ObjectId_str (ObjectId_generate (next_oid w))),
     mkWorld (Some (<[c := collection d c ++
                             [<["_id" := VOid (ObjectId_generate (next_oid w))]> data]]> d))
             (next_oid w + 1) (calls w ++ [CallCreate c data])).
Proof.
  intros Hd. unfold create_document. run_monad. by rewrite Hd.
Qed.

Lemma ensure_objectid_str_ok s oid w :
  ObjectId_of_str s = Some oid → ensure_objectid (VStr s) w = (inr oid, w).
Proof. intros H. unfold ensure_objectid. by rewrite H. Qed.

Lemma ensure_objectid_str_bad s w :
  ObjectId_of_str s = None →
  ensure_objectid (VStr s) w = (inl (HTTPException 400 "Invalid ID format"), w).
Proof. intros H. unfold ensure_objectid. by rewrite H. Qed.

(** ** Malformed identifiers *)




(** ** Cancellation *)

Lemma ensure_objectid_run v w :
  ensure_objectid v w =
    match accepted_id (next_oid w) v with
    | Some oid => (inr oid, after_id v w)
    | None => (inl (HTTPException 400 "Invalid ID format"), w)
    end.
Proof.
  destruct v; cbn; try done.
  unfold ensure_objectid. by destruct (ObjectId_of_str s).
Qed.

Lemma after_id_db v w : db (after_id v w) = db w.
Proof. by destruct v. Qed.

Lemma after_id_calls v w : calls (after_id v w) = calls w.
Proof. by destruct v. Qed.

(** [cancel_alert] once the alert has been found. *)
Lemma cancel_alert_found w d payload aid alert alerts :
  db w = Some d →
  ObjectId_of_str (CancelAlertRequest.alert_id payload) = Some aid →
  find_documents d "alert" [("_id", VOid aid)] = alert :: alerts →
  cancel_alert payload w =
    let w1 := logged (CallFind "alert" [("_id", VOid aid)]) w in
    match accepted_id (next_oid w) (dict_get alert "user_id") with
    | None => (inl (HTTPException 400 "Invalid ID format"), w1)
    | Some uid =>
        let w2 := logged (CallFind "user" [("_id", VOid uid)])
                         (after_id (dict_get alert "user_id") w1) in
        if pin_blocks (head (find_documents d "user" [("_id", VOid uid)]))
                      (CancelAlertRequest.pin payload)
        then (inl (HTTPException 403 "Invalid PIN"), w2)
        else
          (inr (dict [("alert_id", VStr (CancelAlertRequest.alert_id payload));
                      ("status", VStr "canceled")]),
           mkWorld
             (Some (<["alert" :=
                       update_first [("_id", VOid aid)]
                         (apply_set [("status", VStr "canceled")])
                         (collection d "alert")]> d))
             (next_oid w2)
             (calls w2 ++ [CallUpdateOne "alert" [("_id", VOid aid)]
                                         [("status", VStr "canceled")]]))
    end.
Proof.
  intros Hd Haid Hfind. unfold cancel_alert. run_monad.
  rewrite !(ensure_objectid_str_ok _ _ _ Haid).
  rewrite (get_documents_run _ _ _ _ Hd), Hfind.
  rewrite ensure_objectid_run. cbn [logged next_oid].
  destruct (accepted_id _ _) as [uid|]; [|done].
  rewrite (get_documents_run _ _ _ d) by (by rewrite after_id_db).
  assert (Htail : ∀ w', db w' = Some d →
    match db w' with
    | Some d0 => λ w0 : World,
        let (s0, w'0) :=
          ensure_objectid (VStr (CancelAlertRequest.alert_id payload)) w0 in
        match s0 with
        | inl e => (inl e, w'0)
        | inr x0 =>
            let (s1, w'1) :=
              update_one d0 "alert" [("_id", VOid x0)]
                         [("status", VStr "canceled")] w'0 in
            match s1 with
            | inl e => (inl e, w'1)
            | inr _ =>
                (inr (dict [("alert_id", VStr (CancelAlertRequest.alert_id payload));
                            ("status", VStr "canceled")]), w'1)
            end
        end
    | None => λ w0 : World, (inl (HTTPException 500 "Database not available"), w0)
    end w' =
    (inr (dict [("alert_id", VStr (CancelAlertRequest.alert_id payload));
                ("status", VStr "canceled")]),
     mkWorld
       (Some (<["alert" := update_first [("_id", VOid aid)]
                             (apply_set [("status", VStr "canceled")])
                             (collection d "alert")]> d))
       (next_oid w')
       (calls w' ++ [CallUpdateOne "alert" [("_id", VOid aid)]
                                   [("status", VStr "canceled")]]))).
  { intros w' Hw'. rewrite Hw', (ensure_objectid_str_ok _ _ _ Haid).
    unfold update_one. run_monad. done. }
  unfold pin_blocks.
  destruct (head _) as [user|]; cbn [negb andb].
  - destruct (negb (bool_decide (user = ∅)) && truthy (dict_get user "pin"));
      cbn [andb].
    + destruct (pin_rejected _ _); [done |].
      rewrite Htail by (cbn [logged db]; by rewrite after_id_db). done.
    + rewrite Htail by (cbn [logged db]; by rewrite after_id_db). done.
  - rewrite Htail by (cbn [logged db]; by rewrite after_id_db). done.
Qed.

Lemma cancel_alert_malformed w payload :
  ObjectId_of_str (CancelAlertRequest.alert_id payload) = None →
  cancel_alert payload w = (inl (HTTPException 400 "Invalid ID format"), w).
Proof.
  intros Hbad. unfold cancel_alert. run_monad.
  by rewrite (ensure_objectid_str_bad _ _ Hbad).
Qed.

Lemma cancel_alert_unavailable w payload aid :
  db w = None →
  ObjectId_of_str (CancelAlertRequest.alert_id payload) = Some aid →
  cancel_alert payload w =
    (inl StoreUnavailable, logged (CallFind "alert" [("_id", VOid aid)]) w).
Proof.
  intros Hd Haid. unfold cancel_alert. run_monad.
  rewrite !(ensure_objectid_str_ok _ _ _ Haid).
  by rewrite (get_documents_unavailable _ _ _ Hd).
Qed.

Lemma cancel_alert_not_found w d payload aid :
  db w = Some d →
  ObjectId_of_str (CancelAlertRequest.alert_id payload) = Some aid →
  find_documents d "alert" [("_id", VOid aid)] = [] →
  cancel_alert payload w =
    (inl (HTTPException 404 "Alert not found"),
     logged (CallFind "alert" [("_id", VOid aid)]) w).
Proof.
  intros Hd Haid Hfind. unfold cancel_alert. run_monad.
  rewrite !(ensure_objectid_str_ok _ _ _ Haid).
  by rewrite (get_documents_run _ _ _ _ Hd), Hfind.
Qed.

(** A cancellation that raises has issued reads only and has left the
    database as it was. *)
Lemma cancel_alert_error_keeps_store w payload e :
  fst (cancel_alert payload w) = inl e →
  db (snd (cancel_alert payload w)) = db w
  ∧ ∃ reads, calls (snd (cancel_alert payload w)) = calls w ++ reads
             ∧ Forall is_read reads.
Proof.
  destruct (ObjectId_of_str (CancelAlertRequest.alert_id payload)) as [aid|] eqn:Haid.
  2:{ rewrite (cancel_alert_malformed _ _ Haid). intros _. split; [done |].
      exists []. by rewrite app_nil_r. }
  destruct (db w) as [d|] eqn:Hd.
  2:{ rewrite (cancel_alert_unavailable _ _ _ Hd Haid). intros _. split; [done |].
      eexists [_]. split; [done |]. by repeat constructor. }
  destruct (find_documents d "alert" [("_id", VOid aid)]) as [|alert alerts] eqn:Hfind.
  { rewrite (cancel_alert_not_found _ _ _ _ Hd Haid Hfind). intros _. split; [done |].
    eexists [_]. split; [done |]. by repeat constructor. }
  rewrite (cancel_alert_found _ _ _ _ _ _ Hd Haid Hfind). cbn zeta.
  destruct (accepted_id _ _) as [uid|].
  - destruct (pin_blocks _ _); [|done]. intros _. cbn [fst snd logged db calls].
    rewrite after_id_db, after_id_calls. unfold logged. cbn [db calls].
    split; [done |].
    eexists [_; _]. rewrite <- app_assoc. split; [done |]. by repeat constructor.
  - intros _. split; [done |]. eexists [_]. split; [done |]. by repeat constructor.
Qed.

Lemma matches_id_lookup v doc :
  matches [("_id", v)] doc = true → ∃ v', doc !! "_id" = Some v' ∧ value_eqb v v' = true.
Proof.
  unfold matches. cbn. destruct (doc !! "_id") as [v'|]; [|done].
  rewrite andb_true_r. eauto.
Qed.

Lemma find_documents_head_matches d c flt doc docs :
  find_documents d c flt = doc :: docs → matches flt doc = true.
Proof.
  intros Hfind.
  assert (Hin : doc ∈ find_documents d c flt) by (rewrite Hfind; left).
  unfold find_documents in Hin. by apply list_elem_of_filter in Hin as [? _].
Qed.

Lemma found_by_id_nonempty d c v doc docs :
  find_documents d c [("_id", v)] = doc :: docs → doc ≠ ∅.
Proof.
  intros Hfind%find_documents_head_matches%matches_id_lookup.
  destruct Hfind as (v' & Hv' & _). intros ->. by rewrite lookup_empty in Hv'.
Qed.

Lemma pin_rejected_stored pin stored :
  stored ≠ "" →
  pin_rejected pin (VStr stored) = negb (bool_decide (pin = Some stored)).
Proof.
  intros Hne. unfold pin_rejected. destruct pin as [p|]; cbn; [|done].
  destruct (decide (p = stored)) as [->|Hp].
  - by rewrite (bool_decide_eq_false_2 _ Hne), !bool_decide_eq_true_2.
  - rewrite (bool_decide_eq_false_2 (p = stored)), orb_true_r by done.
    by rewrite bool_decide_eq_false_2 by congruence.
Qed.

(** C1. Take a cancellation request whose [alert_id] names a stored
    alert, and let [user] be the owner the handler loads for it. If the
    owner has a non-empty string under ["pin"], the request succeeds
    exactly when its [pin] is that string, and every other request, one
    without a pin included, is answered 403 "Invalid PIN". If the owner
    has no pin ([None], or the empty string), the request succeeds
    whatever its [pin] field is. *)
Theorem cancel_alert_pin_rule
    (w : World) (d : Database) (payload : CancelAlertRequest.t)
    (aid uid : ObjectId) (alert user : Doc) (alerts users : list Doc) :
  db w = Some d →
  ObjectId_of_str (CancelAlertRequest.alert_id payload) = Some aid →
  find_documents d "alert" [("_id", VOid aid)] = alert :: alerts →
  accepted_id (next_oid w) (dict_get alert "user_id") = Some uid →
  find_documents d "user" [("_id", VOid uid)] = user :: users →
  let canceled :=
    dict [("alert_id", VStr (CancelAlertRequest.alert_id payload));
          ("status", VStr "canceled")] in
  (∀ stored, dict_get user "pin" = VStr stored → stored ≠ "" →
     (fst (cancel_alert payload w) = inr canceled
      ↔ CancelAlertRequest.pin payload = Some stored)
     ∧ (CancelAlertRequest.pin payload ≠ Some stored →
        fst (cancel_alert payload w) = inl (HTTPException 403 "Invalid PIN")
        ∧ response_status (HTTPException 403 "Invalid PIN") = 403%Z))
  ∧ (dict_get user "pin" = VNone ∨ dict_get user "pin" = VStr "" →
     fst (cancel_alert payload w) = inr canceled).
Proof.
  intros Hd Haid Halert Huid Huser canceled.
  rewrite (cancel_alert_found _ _ _ _ _ _ Hd Haid Halert). cbn zeta.
  rewrite Huid, Huser. cbn [head pin_blocks].
  rewrite (bool_decide_eq_false_2 _ (found_by_id_nonempty _ _ _ _ _ Huser)).
  cbn [negb andb]. split.
  - intros stored -> Hne. cbn [truthy].
    rewrite (bool_decide_eq_false_2 _ Hne), (pin_rejected_stored _ _ Hne).
    cbn [negb andb]. case_bool_decide as Hpin; cbn [negb].
    + split; [done | congruence].
    + split; [|done]. split; [done | congruence].
  - intros [-> | ->]; done.
Qed.

(** C2. A cancellation that is answered 403 has written nothing: the
    database, and with it the status of the targeted alert, is the one
    the request found, and the only store calls it issued are reads. *)
Theorem cancel_alert_forbidden_no_write
    (w : World) (payload : CancelAlertRequest.t) (detail : string) :
  fst (cancel_alert payload w) = inl (HTTPException 403 detail) →
  (∃ d, db w = Some d ∧ db (snd (cancel_alert payload w)) = Some d)
  ∧ ∃ reads, calls (snd (cancel_alert payload w)) = calls w ++ reads
             ∧ Forall is_read reads.
Proof.
  intros Hforbidden.
  destruct (cancel_alert_error_keeps_store _ _ _ Hforbidden) as [Hdb Hcalls].
  split; [|done]. rewrite Hdb.
  destruct (db w) as [d|] eqn:Hd; [eauto |]. exfalso.
  destruct (ObjectId_of_str (CancelAlertRequest.alert_id payload)) as [aid|] eqn:Haid.
  - by rewrite (cancel_alert_unavailable _ _ _ Hd Haid) in Hforbidden.
  - by rewrite (cancel_alert_malformed _ _ Haid) in Hforbidden.
Qed.

(** C10. Take a cancellation request whose [alert_id] names a stored
    alert. If [ObjectId] accepts what the alert has under ["user_id"]
    (a string it accepts, an identifier, or nothing at all) and no user
    has that identifier, the PIN is not looked at and the request
    succeeds, whatever its [pin] field is. If [ObjectId] refuses it (a
    string it refuses, or a value of another type), the request is
    answered 400, "Invalid ID format", after the one read that found
    the alert: nothing is written. *)
Theorem cancel_alert_without_owner
    (w : World) (d : Database) (payload : CancelAlertRequest.t)
    (aid : ObjectId) (alert : Doc) (alerts : list Doc) :
  db w = Some d →
  ObjectId_of_str (CancelAlertRequest.alert_id payload) = Some aid →
  find_documents d "alert" [("_id", VOid aid)] = alert :: alerts →
  (∀ uid,
     accepted_id (next_oid w) (dict_get alert "user_id") = Some uid →
     find_documents d "user" [("_id", VOid uid)] = [] →
     fst (cancel_alert payload w)
     = inr (dict [("alert_id", VStr (CancelAlertRequest.alert_id payload));
                  ("status", VStr "canceled")]))
  ∧ (accepted_id (next_oid w) (dict_get alert "user_id") = None →
     cancel_alert payload w
     = (inl (HTTPException 400 "Invalid ID format"),
        logged (CallFind "alert" [("_id", VOid aid)]) w)
     ∧ response_status (HTTPException 400 "Invalid ID format") = 400%Z).
Proof.
  intros Hd Haid Halert.
  rewrite (cancel_alert_found _ _ _ _ _ _ Hd Haid Halert). cbn zeta.
  split.
  - intros uid Huid Huser. by rewrite Huid, Huser.
  - intros Huid. by rewrite Huid.
Qed.

(** ** The write of a cancellation *)

Lemma apply_set_status v doc :
  apply_set [("status", v)] doc = <["status" := v]> doc.
Proof. done. Qed.

Lemma filter_none_matching flt (docs : list Doc) :
  Forall (λ a, matches flt a = false) docs →
  filter (λ doc, matches flt doc = true) docs = [].
Proof.
  induction 1 as [|a docs Ha _ IH]; [done |].
  rewrite filter_cons_False by congruence. done.
Qed.

(** The first document that a filter finds is the one [update_first]
    replaces. *)
Lemma update_first_found flt f (docs : list Doc) doc rest :
  filter (λ x, matches flt x = true) docs = doc :: rest →
  ∃ before after,
    docs = before ++ doc :: after
    ∧ Forall (λ a, matches flt a = false) before
    ∧ matches flt doc = true
    ∧ rest = filter (λ x, matches flt x = true) after
    ∧ update_first flt f docs = before ++ f doc :: after.
Proof.
  induction docs as [|x docs IH]; [done |].
  destruct (matches flt x) eqn:Hx.
  - rewrite filter_cons_True by done. intros [= -> <-].
    exists [], docs. cbn. by rewrite Hx.
  - rewrite filter_cons_False by congruence. intros Hrest.
    destruct (IH Hrest) as (before & after & -> & Hbefore & Hdoc & Hafter & Hupd).
    exists (x :: before), after. cbn. rewrite Hx, Hupd.
    repeat split; try done. by constructor.
Qed.

Lemma collection_insert c docs (d : Database) :
  collection (<[c := docs]> d) c = docs.
Proof. unfold collection. by rewrite lookup_insert_eq. Qed.

Lemma collection_insert_ne c c' docs (d : Database) :
  c ≠ c' → collection (<[c := docs]> d) c' = collection d c'.
Proof. intros Hne. unfold collection. by rewrite lookup_insert_ne. Qed.

Lemma matches_id_insert_status v prior (doc : Doc) :
  matches [("_id", v)] (<["status" := prior]> doc) = matches [("_id", v)] doc.
Proof. unfold matches. cbn. by rewrite lookup_insert_ne. Qed.

Lemma dict_get_insert_ne (doc : Doc) k k' v :
  k ≠ k' → dict_get (<[k := v]> doc) k' = dict_get doc k'.
Proof. intros Hne. unfold dict_get. by rewrite lookup_insert_ne. Qed.

(** C6. A cancellation that succeeds has found the store connected and
    the alert in it, and the database it leaves differs from the one it
    found in one place: in the alert collection, the first alert with
    the requested identifier has ["status"] set to "canceled". Every
    other field of that alert (message, location, share_url, user_id
    among them) is as it was. The status the alert had plays no part:
    had it been any other value, "canceled" and "resolved" included, the
    same request would have succeeded with the same answer. *)
Theorem cancel_alert_writes_status_only
    (w : World) (payload : CancelAlertRequest.t) (resp : Doc) :
  fst (cancel_alert payload w) = inr resp →
  ∃ d aid before alert after,
    db w = Some d
    ∧ ObjectId_of_str (CancelAlertRequest.alert_id payload) = Some aid
    ∧ collection d "alert" = before ++ alert :: after
    ∧ Forall (λ a, matches [("_id", VOid aid)] a = false) before
    ∧ matches [("_id", VOid aid)] alert = true
    ∧ db (snd (cancel_alert payload w))
      = Some (<["alert" := before ++ <["status" := VStr "canceled"]> alert :: after]> d)
    ∧ (∀ k, k ≠ "status" →
         (<["status" := VStr "canceled"]> alert) !! k = alert !! k)
    ∧ (∀ prior,
         fst (cancel_alert payload
                (mkWorld
                   (Some (<["alert" := before ++ <["status" := prior]> alert :: after]> d))
                   (next_oid w) (calls w)))
         = inr resp).
Proof.
  destruct (ObjectId_of_str (CancelAlertRequest.alert_id payload)) as [aid|] eqn:Haid.
  2:{ by rewrite (cancel_alert_malformed _ _ Haid). }
  destruct (db w) as [d|] eqn:Hd.
  2:{ by rewrite (cancel_alert_unavailable _ _ _ Hd Haid). }
  destruct (find_documents d "alert" [("_id", VOid aid)]) as [|alert alerts] eqn:Hfind.
  { by rewrite (cancel_alert_not_found _ _ _ _ Hd Haid Hfind). }
  rewrite (cancel_alert_found _ _ _ _ _ _ Hd Haid Hfind). cbn zeta.
  destruct (accepted_id _ _) as [uid|] eqn:Huid; [|done].
  destruct (pin_blocks _ _) eqn:Hpin; [done |].
  cbn [fst snd db]. intros [= <-].
  destruct (update_first_found _ (apply_set [("status", VStr "canceled")]) _ _ _ Hfind)
    as (before & after & Hcoll & Hbefore & Halert & Hafter & Hupd).
  exists d, aid, before, alert, after.
  rewrite Hupd, apply_set_status.
  repeat split; try done.
  - intros k Hk. by rewrite lookup_insert_ne.
  - intros prior.
    set (d' := <["alert" := before ++ <["status" := prior]> alert :: after]> d).
    erewrite (cancel_alert_found _ d' _ aid (<["status" := prior]> alert)
                (filter (λ x, matches [("_id", VOid aid)] x = true) after));
      [| done | done |].
    + cbn zeta. cbn [next_oid].
      rewrite dict_get_insert_ne, Huid by done.
      unfold find_documents, d'. rewrite collection_insert_ne by done.
      fold (find_documents d "user" [("_id", VOid uid)]). by rewrite Hpin.
    + unfold find_documents, d'. rewrite collection_insert, filter_app.
      rewrite filter_none_matching, filter_cons_True; [done | | done].
      by rewrite matches_id_insert_status.
Qed.

(** ** Alert creation *)

Lemma create_alert_run w d payload oid :
  db w = Some d →
  ObjectId_of_str (CreateAlertRequest.user_id payload) = Some oid →
  create_alert payload w =
    let w1 := logged (CallFind "user" [("_id", VOid oid)]) w in
    match find_documents d "user" [("_id", VOid oid)] with
    | [] => (inl (HTTPException 404 "User not found"), w1)
    | user :: _ =>
        (inr (dict [("alert_id", VStr (ObjectId_str (ObjectId_generate (next_oid w))));
                    ("status", VStr "active")]),
         mkWorld
           (Some (<["alert" :=
                     collection d "alert" ++
                     [<["_id" := VOid (ObjectId_generate (next_oid w))]>
                        (alert_data payload user)]]> d))
           (next_oid w + 1)
           (calls w1 ++ [CallCreate "alert" (alert_data payload user)]))
    end.
Proof.
  intros Hd Hoid. unfold create_alert. run_monad.
  rewrite !(ensure_objectid_str_ok _ _ _ Hoid).
  rewrite (get_documents_run _ _ _ _ Hd).
  destruct (find_documents _ _ _) as [|user users]; [done |].
  by rewrite (create_document_run _ _ _ d).
Qed.

(** C4. For a request whose [user_id] is a well-formed identifier, on a
    connected store: alert creation is answered 404 "User not found"
    exactly when no user document has that identifier, and it fails in
    no other way. When it succeeds, the alert collection has one more
    document, with ["status"] "active" and ["share_url"] [None], and the
    answer carries the identifier of that document and the status
    "active". *)
Theorem create_alert_not_found_or_active
    (w : World) (d : Database) (payload : CreateAlertRequest.t) (oid : ObjectId) :
  db w = Some d →
  ObjectId_of_str (CreateAlertRequest.user_id payload) = Some oid →
  (fst (create_alert payload w) = inl (HTTPException 404 "User not found")
   ↔ find_documents d "user" [("_id", VOid oid)] = [])
  ∧ response_status (HTTPException 404 "User not found") = 404%Z
  ∧ (∀ e, fst (create_alert payload w) = inl e →
          e = HTTPException 404 "User not found")
  ∧ (∀ resp, fst (create_alert payload w) = inr resp →
       ∃ alert new_id,
         db (snd (create_alert payload w))
         = Some (<["alert" := collection d "alert" ++ [alert]]> d)
         ∧ alert !! "_id" = Some (VOid new_id)
         ∧ alert !! "status" = Some (VStr "active")
         ∧ alert !! "share_url" = Some VNone
         ∧ resp = dict [("alert_id", VStr (ObjectId_str new_id));
                        ("status", VStr "active")]).
Proof.
  intros Hd Hoid. rewrite (create_alert_run _ _ _ _ Hd Hoid). cbn zeta.
  destruct (find_documents _ _ _) as [|user users]; cbn [fst snd db].
  - repeat split; try done. by intros e [= <-].
  - repeat split; try done.
    intros resp [= <-]. eexists _, _. split; [done |].
    rewrite lookup_insert_eq. unfold alert_data, dict.
    rewrite !lookup_insert_ne by done. cbn. done.
Qed.

(** C5. When the request has no message and the user document that is
    loaded has no ["default_message"] field, the alert that is stored
    has the fixed emergency sentence as its message. *)
Theorem create_alert_fallback_message
    (w : World) (d : Database) (user_id : string) (location : option Location.t)
    (oid : ObjectId) (user : Doc) (users : list Doc) :
  db w = Some d →
  ObjectId_of_str user_id = Some oid →
  find_documents d "user" [("_id", VOid oid)] = user :: users →
  user !! "default_message" = None →
  ∃ alert resp,
    fst (create_alert (CreateAlertRequest.mk user_id None location) w) = inr resp
    ∧ db (snd (create_alert (CreateAlertRequest.mk user_id None location) w))
      = Some (<["alert" := collection d "alert" ++ [alert]]> d)
    ∧ alert !! "message"
      = Some (VStr "I need help. This is an emergency. Please check my location and contact me immediately.").
Proof.
  intros Hd Hoid Huser Hnone.
  rewrite (create_alert_run _ _ _ oid Hd) by done. cbn zeta. rewrite Huser.
  eexists _, _. split; [done |]. split; [done |].
  rewrite lookup_insert_ne by done. unfold alert_data, dict, dict_get_default.
  rewrite Hnone. cbn. by rewrite lookup_insert_ne, lookup_insert_eq.
Qed.

(** ** Registration *)

Lemma insert_contact_run user_id c w d :
  db w = Some d →
  insert_contact user_id c w =
    (inr (),
     mkWorld (Some (<["contact" := collection d "contact" ++
                        [<["_id" := VOid (ObjectId_generate (next_oid w))]>
                           (contact_document user_id c)]]> d))
             (next_oid w + 1)
             (calls w ++ [CallCreate "contact" (contact_document user_id c)])).
Proof.
  intros Hd. unfold insert_contact. run_monad.
  by rewrite (create_document_run _ _ _ _ Hd).
Qed.

Lemma for_each_contacts user_id cs : ∀ w d,
  db w = Some d →
  ∃ d' trace,
    for_each cs (insert_contact user_id) w
    = (inr (), mkWorld (Some d') (next_oid w + N.of_nat (length cs)) trace)
    ∧ collection d' "contact"
      = collection d "contact" ++ stored_contacts user_id (next_oid w) cs
    ∧ ∀ c, c ≠ "contact" → collection d' c = collection d c.
Proof.
  induction cs as [|c cs IH]; intros w d Hd.
  - exists d, (calls w). cbn. rewrite N.add_0_r, app_nil_r, <- Hd.
    by destruct w.
  - cbn [for_each]. rewrite bind_run, (insert_contact_run _ _ _ _ Hd).
    edestruct (IH (mkWorld
                (Some (<["contact" := collection d "contact" ++
                   [<["_id" := VOid (ObjectId_generate (next_oid w))]>
                      (contact_document user_id c)]]> d))
                (next_oid w + 1)
                (calls w ++ [CallCreate "contact" (contact_document user_id c)])))
      as (d' & trace & Hrun & Hcontact & Hother); [done |].
    exists d', trace. rewrite Hrun. cbn [next_oid length stored_contacts].
    split; [do 2 f_equal; lia |]. split.
    + by rewrite Hcontact, collection_insert, <- app_assoc.
    + intros c' Hc'. by rewrite Hother, collection_insert_ne.
Qed.

(** [register_user] on a connected store. *)
Lemma register_user_run w d payload :
  db w = Some d →
  let user_id := ObjectId_str (ObjectId_generate (next_oid w)) in
  let submitted := default [] (RegisterUserRequest.contacts payload) in
  ∃ d' trace,
    register_user payload w
    = (inr (dict [("user_id", VStr user_id)]),
       mkWorld (Some d') (next_oid w + 1 + N.of_nat (length submitted)) trace)
    ∧ collection d' "user"
      = collection d "user" ++
        [<["_id" := VOid (ObjectId_generate (next_oid w))]>
           (dict (RegisterUserRequest.model_dump payload))]
    ∧ collection d' "contact"
      = collection d "contact" ++ stored_contacts user_id (next_oid w + 1) submitted
    ∧ ∀ c, c ≠ "user" → c ≠ "contact" → collection d' c = collection d c.
Proof.
  intros Hd user_id submitted. unfold register_user. run_monad.
  rewrite (create_document_run _ _ _ _ Hd). fold user_id.
  set (d1 := <["user" := collection d "user" ++
                [<["_id" := VOid (ObjectId_generate (next_oid w))]>
                   (dict (RegisterUserRequest.model_dump payload))]]> d).
  set (w1 := mkWorld (Some d1) _ _).
  assert (Hskip : ∃ d' trace,
    (@inr Exn Doc (dict [("user_id", VStr user_id)]), w1)
    = (inr (dict [("user_id", VStr user_id)]),
       mkWorld (Some d') (next_oid w + 1 + N.of_nat 0) trace)
    ∧ collection d' "user" = collection d "user" ++
        [<["_id" := VOid (ObjectId_generate (next_oid w))]>
           (dict (RegisterUserRequest.model_dump payload))]
    ∧ collection d' "contact" = collection d "contact" ++ []
    ∧ ∀ c, c ≠ "user" → c ≠ "contact" → collection d' c = collection d c).
  { exists d1, (calls w1). rewrite N.add_0_r, app_nil_r. split; [done |].
    unfold d1. rewrite collection_insert, collection_insert_ne by done.
    repeat split; try done. intros c ? ?. by rewrite collection_insert_ne. }
  unfold submitted.
  destruct (RegisterUserRequest.contacts payload) as [[|c cs]|]; try exact Hskip.
  clear Hskip. cbn [default].
  destruct (for_each_contacts user_id (c :: cs) w1 d1 eq_refl)
    as (d' & trace & Hrun & Hcontact & Hother).
  exists d', trace. rewrite Hrun. cbn [next_oid w1].
  split; [done |]. split; [|split].
  - rewrite Hother by done. unfold d1. by rewrite collection_insert.
  - rewrite Hcontact. unfold d1. by rewrite collection_insert_ne.
  - intros c' ? ?. rewrite Hother by done. unfold d1.
    by rewrite collection_insert_ne.
Qed.

Lemma list_contacts_run repr w d user_id oid :
  db w = Some d →
  ObjectId_of_str user_id = Some oid →
  list_contacts repr user_id w =
    (inr (coerce_id repr <$> find_documents d "contact" [("user_id", VStr user_id)]),
     logged (CallFind "contact" [("user_id", VStr user_id)]) w).
Proof.
  intros Hd Hoid. unfold list_contacts. run_monad.
  by rewrite (ensure_objectid_str_ok _ _ _ Hoid), (get_documents_run _ _ _ _ Hd).
Qed.

Lemma contact_document_lookup user_id c :
  contact_document user_id c !! "_id" = None
  ∧ contact_document user_id c !! "user_id" = Some (VStr user_id)
  ∧ contact_fields (contact_document user_id c) = submitted_fields c.
Proof.
  unfold contact_fields, contact_document, dict. cbn.
  unfold submitted_fields. repeat split; by simplify_map_eq.
Qed.

Lemma value_eqb_str s v : value_eqb (VStr s) v = true ↔ v = VStr s.
Proof.
  destruct v; cbn; try (split; [done | congruence]).
  rewrite bool_decide_eq_true. split; congruence.
Qed.

Lemma matches_user_id user_id (r : Doc) :
  matches [("user_id", VStr user_id)] r = true
  ↔ r !! "user_id" = Some (VStr user_id).
Proof.
  unfold matches. cbn [forallb fst snd].
  destruct (r !! "user_id") as [v|]; [|done].
  rewrite andb_true_r, value_eqb_str. split; congruence.
Qed.





(** ** What the schema asks of a registration body *)

Lemma vap_inl_l {A B} e (x : Validated A) :
  ∃ e', vap (inl e : Validated (A → B)) x = inl e'.
Proof. destruct x; cbn; eauto. Qed.

Lemma vap_inl_r {A B} (f : Validated (A → B)) e :
  ∃ e', vap f (inl e) = inl e'.
Proof. destruct f; cbn; eauto. Qed.

Lemma validate_Contact_missing_user_id EmailStr at_ entry :
  member "user_id" entry = None →
  ∃ errors, validate_Contact EmailStr at_ (JObject entry) = inl errors.
Proof.
  intros Hmissing. unfold validate_Contact. rewrite Hmissing.
  destruct (required_str _ (member "name" entry)), (optional_str _ _),
    (optional_email _ _ _); cbn; eauto.
Qed.

Lemma validate_Contacts_invalid EmailStr at_ items : ∀ i k entry,
  items !! i = Some entry →
  (∀ at', ∃ errors, validate_Contact EmailStr at' entry = inl errors) →
  ∃ errors, validate_Contacts EmailStr at_ k items = inl errors.
Proof.
  induction items as [|j items IH]; intros i k entry Hi Hentry; [done |].
  cbn [validate_Contacts]. destruct i as [|i].
  - injection Hi as ->. destruct (Hentry (at_ ++ [Index k])) as [e ->].
    cbn [vap]. apply vap_inl_l.
  - destruct (IH i (S k) entry Hi Hentry) as [e ->]. apply vap_inl_r.
Qed.

(** What registration does with the ["user_id"] of a contact entry, in
    general (C8). The request model takes its contact entries through
    [Contact], the schema of the stored record, where ["user_id"] is
    required,
    although [register_user] overwrites what is submitted there with an
    identifier that does not exist before the request. So the code
    departs from the claim: a body with an entry that lacks ["user_id"]
    is answered 422 and nothing is stored. The other half of the claim
    holds: for a body that the schema accepts, on a connected store,
    every submitted contact is stored, in order, with the identifier of
    the new user under ["user_id"] in place of the one submitted, and
    with its name, phone and email as submitted. *)
Theorem register_contact_user_id
    (EmailStr : string → option string) (w : World) (body : JSON) :
  (∀ m items i entry,
     body = JObject m →
     member "contacts" m = Some (JArray items) →
     items !! i = Some (JObject entry) →
     member "user_id" entry = None →
     ∃ errors,
       post_register EmailStr body w = (inl (RequestValidationError errors), w)
       ∧ response_status (RequestValidationError errors) = 422%Z)
  ∧ (∀ payload d,
       validate_RegisterUserRequest EmailStr body = inr payload →
       db w = Some d →
       let user_id := ObjectId_str (ObjectId_generate (next_oid w)) in
       let submitted := default [] (RegisterUserRequest.contacts payload) in
       ∃ d' stored,
         fst (post_register EmailStr body w) = inr (dict [("user_id", VStr user_id)])
         ∧ db (snd (post_register EmailStr body w)) = Some d'
         ∧ collection d' "contact" = collection d "contact" ++ stored
         ∧ Forall2 (λ c r, r !! "user_id" = Some (VStr user_id)
                           ∧ contact_fields r = submitted_fields c)
                   submitted stored).
Proof.
  split.
  - intros m items i entry -> Hcontacts Hi Hmissing.
    unfold post_register, validate_RegisterUserRequest. rewrite Hcontacts.
    cbn [optional_contacts].
    destruct (validate_Contacts_invalid EmailStr [Field "body"; Field "contacts"]
                items i 0 (JObject entry) Hi) as [e ->].
    { intros at'. by apply validate_Contact_missing_user_id. }
    destruct (validate_User_fields EmailStr [Field "body"] m); cbn; eauto.
  - intros payload d Hvalid Hd user_id submitted.
    unfold post_register. rewrite Hvalid.
    destruct (register_user_run w d payload Hd)
      as (d' & trace & Hrun & _ & Hcontact & _).
    rewrite Hrun. cbn [fst snd db].
    exists d', (stored_contacts user_id (next_oid w + 1) submitted).
    repeat split; try done.
    generalize (next_oid w + 1)%N. fold submitted.
    induction submitted as [|c cs IH]; intros n; constructor; [|apply IH].
    destruct (contact_document_lookup user_id c) as (_ & Huser & Hfields).
    unfold contact_fields in *. by rewrite !lookup_insert_ne.
Qed.

(** C9. The schema puts no condition on the characters or the length of
    ["pin"]: a body with the pin "abc", and with any other string as
    pin, is accepted, and the user is stored with that pin. *)
Theorem register_accepts_any_pin (EmailStr : string → option string) :
  (∀ pin,
     validate_RegisterUserRequest EmailStr (body_with_pin pin)
     = inr (RegisterUserRequest.mk
              (User.mk "A" "555" None DEFAULT_MESSAGE (Some pin)) None))
  ∧ fst (post_register EmailStr (body_with_pin "abc") empty_world)
    = inr (dict [("user_id", VStr "000000000000000000000000")])
  ∧ (λ user : Doc, user !! "pin")
    <$> collection
          (default ∅ (db (snd (post_register EmailStr (body_with_pin "abc")
                                             empty_world))))
          "user"
    = [Some (VStr "abc")].
Proof. split; [done |]. split; vm_compute; reflexivity. Qed.

(** ** The properties at the sample worlds *)

Ltac by_computation := vm_compute; reflexivity.

(** C1 at the alert of the registered user, whose PIN is 1234: the
    request with 1234 succeeds, the request with 0000 and the request
    without a pin are answered 403. *)
Lemma cancel_alert_pin_rule_sample :
  fst (cancel_alert (CancelAlertRequest.mk sample_alert_id (Some "1234")) alerted_world)
  = inr (dict [("alert_id", VStr sample_alert_id); ("status", VStr "canceled")])
  ∧ fst (cancel_alert (CancelAlertRequest.mk sample_alert_id (Some "0000")) alerted_world)
    = inl (HTTPException 403 "Invalid PIN")
  ∧ fst (cancel_alert (CancelAlertRequest.mk sample_alert_id None) alerted_world)
    = inl (HTTPException 403 "Invalid PIN").
Proof.
  assert (Hrule := λ pin,
    proj1 (cancel_alert_pin_rule alerted_world alerted_db
             (CancelAlertRequest.mk sample_alert_id pin)
             (ObjectId_generate 3) (ObjectId_generate 0)
             sample_alert sample_user [] []
             ltac:(by_computation) ltac:(by_computation) ltac:(by_computation)
             ltac:(by_computation) ltac:(by_computation))
          "1234" ltac:(by_computation) ltac:(discriminate)).
  split; [|split].
  - by apply (Hrule (Some "1234")).
  - by apply (Hrule (Some "0000")).
  - by apply (Hrule None).
Defined.

(** C2 at the same alert, with the wrong PIN. *)
Lemma cancel_alert_forbidden_no_write_sample :
  (∃ d, db alerted_world = Some d
        ∧ db (snd (cancel_alert (CancelAlertRequest.mk sample_alert_id (Some "0000"))
                                alerted_world)) = Some d)
  ∧ ∃ reads,
      calls (snd (cancel_alert (CancelAlertRequest.mk sample_alert_id (Some "0000"))
                               alerted_world))
      = calls alerted_world ++ reads
      ∧ Forall is_read reads.
Proof.
  apply (cancel_alert_forbidden_no_write alerted_world
           (CancelAlertRequest.mk sample_alert_id (Some "0000")) "Invalid PIN").
  by_computation.
Defined.


(** C4 at the registered user. *)
Lemma create_alert_not_found_or_active_sample :
  ∃ alert new_id,
    db alerted_world
    = Some (<["alert" := collection registered_db "alert" ++ [alert]]> registered_db)
    ∧ alert !! "_id" = Some (VOid new_id)
    ∧ alert !! "status" = Some (VStr "active")
    ∧ alert !! "share_url" = Some VNone.
Proof.
  destruct (create_alert_not_found_or_active registered_world registered_db
              (CreateAlertRequest.mk sample_user_id None None) (ObjectId_generate 0)
              ltac:(by_computation) ltac:(by_computation))
    as (_ & _ & _ & Hok).
  destruct (Hok _ ltac:(by_computation)) as (alert & new_id & Hdb & Hid & Hst & Hurl & _).
  exists alert, new_id.
  split; [exact Hdb |]. split; [exact Hid |]. split; [exact Hst | exact Hurl].
Defined.

(** C5 at a user document without ["default_message"]. *)
Lemma create_alert_fallback_message_sample :
  ∃ alert resp,
    fst (create_alert (CreateAlertRequest.mk sample_user_id None None) legacy_world)
    = inr resp
    ∧ db (snd (create_alert (CreateAlertRequest.mk sample_user_id None None) legacy_world))
      = Some (<["alert" := collection legacy_db "alert" ++ [alert]]> legacy_db)
    ∧ alert !! "message"
      = Some (VStr "I need help. This is an emergency. Please check my location and contact me immediately.").
Proof.
  apply (create_alert_fallback_message legacy_world legacy_db sample_user_id None
           (ObjectId_generate 0) legacy_user []);
    by_computation.
Defined.

(** C6 at an alert that is already "resolved" and whose owner is not in
    the store. *)
Lemma cancel_alert_writes_status_only_sample :
  let w := orphan_world (VStr "ffffffffffffffffffffffff") "resolved" in
  let payload := CancelAlertRequest.mk sample_user_id None in
  let resp := dict [("alert_id", VStr sample_user_id); ("status", VStr "canceled")] in
  ∃ d aid before alert after,
    db w = Some d
    ∧ ObjectId_of_str (CancelAlertRequest.alert_id payload) = Some aid
    ∧ collection d "alert" = before ++ alert :: after
    ∧ Forall (λ a, matches [("_id", VOid aid)] a = false) before
    ∧ matches [("_id", VOid aid)] alert = true
    ∧ db (snd (cancel_alert payload w))
      = Some (<["alert" := before ++ <["status" := VStr "canceled"]> alert :: after]> d)
    ∧ (∀ k, k ≠ "status" →
         (<["status" := VStr "canceled"]> alert) !! k = alert !! k)
    ∧ (∀ prior,
         fst (cancel_alert payload
                (mkWorld
                   (Some (<["alert" := before ++ <["status" := prior]> alert :: after]> d))
                   (next_oid w) (calls w)))
         = inr resp).
Proof.
  intros w payload resp.
  apply (cancel_alert_writes_status_only w payload resp).
  by_computation.
Defined.



(** C8 at the failing request: the registration whose contact entry
    has a name and no ["user_id"] is not accepted. It is answered 422,
    the one error being the missing field, and the store is not
    called. *)
Lemma register_contact_without_user_id_rejected :
  post_register any_address body_without_contact_user_id empty_world
  = (inl (RequestValidationError
            [mkError [Field "body"; Field "contacts"; Index 0; Field "user_id"]
                     missing]),
     empty_world).
Proof. by_computation. Qed.

(** The same at the body whose contact entry has no ["user_id"], and at
    the sample body, whose two entries carry the placeholders "x" and "y"
    there. *)
Lemma register_contact_user_id_sample :
  (∃ errors,
     post_register any_address body_without_contact_user_id empty_world
     = (inl (RequestValidationError errors), empty_world)
     ∧ response_status (RequestValidationError errors) = 422%Z)
  ∧ ∃ d' stored,
      fst (post_register any_address sample_body empty_world)
      = inr (dict [("user_id", VStr sample_user_id)])
      ∧ db (snd (post_register any_address sample_body empty_world)) = Some d'
      ∧ collection d' "contact" = collection ∅ "contact" ++ stored
      ∧ Forall2 (λ c r, r !! "user_id" = Some (VStr sample_user_id)
                        ∧ contact_fields r = submitted_fields c)
                [Contact.mk "x" "B" None None; Contact.mk "y" "C" (Some "1") None]
                stored.
Proof.
  split.
  - apply (proj1 (register_contact_user_id any_address empty_world
                    body_without_contact_user_id)
             [("name", JString "A"); ("phone", JString "555");
              ("contacts", JArray [JObject [("name", JString "B")]])]
             [JObject [("name", JString "B")]] 0%nat [("name", JString "B")]);
      by_computation.
  - apply (proj2 (register_contact_user_id any_address empty_world sample_body)
             sample_payload ∅); by_computation.
Defined.

(** C10 as the claim has it fails: the alert is in the store, no user
    document is, and what the alert has under ["user_id"] is a string
    that [ObjectId] refuses; the cancellation is answered 400. *)
Lemma cancel_alert_malformed_owner_rejected :
  find_documents (orphan_db (VStr "not-an-id") "active") "alert"
                 [("_id", VOid (ObjectId_generate 0))]
  = [orphan_alert (VStr "not-an-id") "active"]
  ∧ collection (orphan_db (VStr "not-an-id") "active") "user" = []
  ∧ fst (cancel_alert (CancelAlertRequest.mk sample_user_id None)
                      (orphan_world (VStr "not-an-id") "active"))
    = inl (HTTPException 400 "Invalid ID format").
Proof. repeat split; by_computation. Qed.

(** C10 at three alerts that no user owns: one whose owner is written
    as an identifier that no user has, one with no owner recorded, and
    one whose owner is the string "not-an-id". *)
Lemma cancel_alert_without_owner_sample :
  fst (cancel_alert (CancelAlertRequest.mk sample_user_id (Some "0000"))
                    (orphan_world (VStr "ffffffffffffffffffffffff") "active"))
  = inr (dict [("alert_id", VStr sample_user_id); ("status", VStr "canceled")])
  ∧ fst (cancel_alert (CancelAlertRequest.mk sample_user_id None)
                      (orphan_world VNone "active"))
    = inr (dict [("alert_id", VStr sample_user_id); ("status", VStr "canceled")])
  ∧ cancel_alert (CancelAlertRequest.mk sample_user_id None)
                 (orphan_world (VStr "not-an-id") "active")
    = (inl (HTTPException 400 "Invalid ID format"),
       logged (CallFind "alert" [("_id", VOid (ObjectId_generate 0))])
              (orphan_world (VStr "not-an-id") "active")).
Proof.
  split; [| split].
  - refine (proj1 (cancel_alert_without_owner
                     (orphan_world (VStr "ffffffffffffffffffffffff") "active")
                     (orphan_db (VStr "ffffffffffffffffffffffff") "active")
                     (CancelAlertRequest.mk sample_user_id (Some "0000"))
                     (ObjectId_generate 0)
                     (orphan_alert (VStr "ffffffffffffffffffffffff") "active") []
                     _ _ _)
                  (default (ObjectId_generate 0)
                           (ObjectId_of_str "ffffffffffffffffffffffff")) _ _);
      by_computation.
  - refine (proj1 (cancel_alert_without_owner
                     (orphan_world VNone "active") (orphan_db VNone "active")
                     (CancelAlertRequest.mk sample_user_id None)
                     (ObjectId_generate 0) (orphan_alert VNone "active") []
                     _ _ _)
                  (ObjectId_generate 1) _ _);
      by_computation.
  - refine (proj1 (proj2 (cancel_alert_without_owner
                     (orphan_world (VStr "not-an-id") "active")
                     (orphan_db (VStr "not-an-id") "active")
                     (CancelAlertRequest.mk sample_user_id None)
                     (ObjectId_generate 0)
                     (orphan_alert (VStr "not-an-id") "active") []
                     _ _ _) _));
      by_computation.
Defined.

(* ================================================================== *)
(** * Further properties of the handlers                                *)
(* ================================================================== *)

(** ** Identifiers and listings *)

(** X1. [ensure_objectid] reads an identifier back from its string
    form: given [str(oid)] of a twelve-byte identifier it returns that
    identifier and leaves the world as it was. *)
Theorem ensure_objectid_round_trip (oid : ObjectId) (w : World) :
  length (binary oid) = 12%nat →
  ensure_objectid (VStr (ObjectId_str oid)) w = (inr oid, w).
Proof.
  intros Hlen. apply ensure_objectid_str_ok. by apply ObjectId_of_str_str.
Qed.

Lemma ensure_objectid_round_trip_sample :
  ensure_objectid (VStr sample_alert_id) alerted_world
  = (inr (ObjectId_generate 3), alerted_world).
Proof.
  apply (ensure_objectid_round_trip (ObjectId_generate 3) alerted_world).
  by_computation.
Defined.

Lemma list_alerts_run repr w d user_id oid :
  db w = Some d →
  ObjectId_of_str user_id = Some oid →
  list_alerts repr user_id w =
    (inr (coerce_id repr <$> find_documents d "alert" [("user_id", VStr user_id)]),
     logged (CallFind "alert" [("user_id", VStr user_id)]) w).
Proof.
  intros Hd Hoid. unfold list_alerts. run_monad.
  by rewrite (ensure_objectid_str_ok _ _ _ Hoid), (get_documents_run _ _ _ _ Hd).
Qed.






(** X3. A listing never writes: for every [user_id] and every world,
    whatever the outcome, the database and the identifier generator are
    as before, and at most one store call was issued, a read. *)
Theorem listing_is_read_only (repr : Value → string) (user_id : string) (w : World) :
  reads_only w (snd (list_contacts repr user_id w))
  ∧ reads_only w (snd (list_alerts repr user_id w)).
Proof.
  assert (Hnone : reads_only w w).
  { repeat split. exists []. rewrite app_nil_r. repeat split; [constructor | cbn; lia]. }
  assert (Hone : ∀ c flt, reads_only w (logged (CallFind c flt) w)).
  { intros c flt. repeat split. eexists [_]. repeat split; [by repeat constructor | done]. }
  destruct (ObjectId_of_str user_id) as [oid|] eqn:Hoid.
  - destruct (db w) as [d|] eqn:Hd.
    + rewrite (list_contacts_run repr _ _ _ _ Hd Hoid),
        (list_alerts_run repr _ _ _ _ Hd Hoid).
      split; apply Hone.
    + unfold list_contacts, list_alerts. run_monad.
      rewrite !(ensure_objectid_str_ok _ _ _ Hoid), !(get_documents_unavailable _ _ _ Hd).
      split; apply Hone.
  - unfold list_contacts, list_alerts. run_monad.
    by rewrite !(ensure_objectid_str_bad _ _ Hoid).
Qed.

(** ** Alert creation, further *)

Lemma create_alert_malformed w payload :
  ObjectId_of_str (CreateAlertRequest.user_id payload) = None →
  create_alert payload w = (inl (HTTPException 400 "Invalid ID format"), w).
Proof.
  intros Hbad. unfold create_alert. run_monad.
  by rewrite (ensure_objectid_str_bad _ _ Hbad).
Qed.

Lemma create_alert_unavailable w payload oid :
  db w = None →
  ObjectId_of_str (CreateAlertRequest.user_id payload) = Some oid →
  create_alert payload w =
    (inl StoreUnavailable, logged (CallFind "user" [("_id", VOid oid)]) w).
Proof.
  intros Hd Hoid. unfold create_alert. run_monad.
  rewrite !(ensure_objectid_str_ok _ _ _ Hoid).
  by rewrite (get_documents_unavailable _ _ _ Hd).
Qed.

(** X4. Whatever the request and the world, alert creation ends in one
    of four ways. It fails with 400 "Invalid ID format", with the store
    unavailable, or with 404 "User not found", and then the database and
    the identifier generator are as before. Or it succeeds: the store is
    connected, [user_id] is well formed, a user with that identifier is
    found, and the database differs from the one before only in the
    alert collection, which has one more document at its end: the
    [alert_data] built from the request and the first such user, under a
    new identifier, whose string form is the [alert_id] of the answer. *)
Theorem create_alert_outcomes (payload : CreateAlertRequest.t) (w : World) :
  match create_alert payload w with
  | (inl e, w') =>
      e ∈ [HTTPException 400 "Invalid ID format"; StoreUnavailable;
           HTTPException 404 "User not found"]
      ∧ db w' = db w ∧ next_oid w' = next_oid w
  | (inr resp, w') =>
      ∃ d oid user users,
        db w = Some d
        ∧ ObjectId_of_str (CreateAlertRequest.user_id payload) = Some oid
        ∧ find_documents d "user" [("_id", VOid oid)] = user :: users
        ∧ db w' = Some (<["alert" :=
                          collection d "alert" ++
                          [<["_id" := VOid (ObjectId_generate (next_oid w))]>
                             (alert_data payload user)]]> d)
        ∧ next_oid w' = (next_oid w + 1)%N
        ∧ resp = dict [("alert_id", VStr (ObjectId_str (ObjectId_generate (next_oid w))));
                       ("status", VStr "active")]
  end.
Proof.
  destruct (ObjectId_of_str (CreateAlertRequest.user_id payload)) as [oid|] eqn:Hoid.
  2:{ rewrite (create_alert_malformed _ _ Hoid). split; [set_solver | done]. }
  destruct (db w) as [d|] eqn:Hd.
  2:{ rewrite (create_alert_unavailable _ _ _ Hd Hoid). split; [set_solver | done]. }
  rewrite (create_alert_run _ _ _ _ Hd Hoid). cbn zeta.
  destruct (find_documents d "user" [("_id", VOid oid)]) as [|user users] eqn:Hfind.
  - split; [set_solver | done].
  - exists d, oid, user, users. by rewrite Hfind.
Qed.

(** X5. The message of the alert that [create_alert] builds: a
    non-empty message of the request is taken as it is; a request with
    no message, or with the empty string as message, takes what the user
    document has under ["default_message"], whatever that value is; and
    only a user document without that field gives the fixed sentence. *)
Theorem alert_data_message (payload : CreateAlertRequest.t) (user : Doc) :
  alert_data payload user !! "message" =
    Some (match CreateAlertRequest.message payload with
          | Some m =>
              if bool_decide (m = "")
              then default (VStr DEFAULT_MESSAGE) (user !! "default_message")
              else VStr m
          | None => default (VStr DEFAULT_MESSAGE) (user !! "default_message")
          end)
  ∧ alert_data payload user !! "user_id"
    = Some (VStr (CreateAlertRequest.user_id payload))
  ∧ alert_data payload user !! "status" = Some (VStr "active")
  ∧ alert_data payload user !! "share_url" = Some VNone
  ∧ alert_data payload user !! "_id" = None.
Proof.
  unfold alert_data, dict, py_or, dict_get_default. cbn [list_to_map foldr fst snd].
  repeat split; try by simplify_map_eq.
  rewrite lookup_insert_ne, lookup_insert_eq by done. f_equal.
  destruct (CreateAlertRequest.message payload) as [m|]; cbn; [|done].
  by case_bool_decide.
Qed.

Lemma create_alert_success_inv payload w resp :
  fst (create_alert payload w) = inr resp →
  ∃ d oid user users,
    db w = Some d
    ∧ ObjectId_of_str (CreateAlertRequest.user_id payload) = Some oid
    ∧ find_documents d "user" [("_id", VOid oid)] = user :: users.
Proof.
  destruct (ObjectId_of_str (CreateAlertRequest.user_id payload)) as [oid|] eqn:Hoid.
  2:{ by rewrite (create_alert_malformed _ _ Hoid). }
  destruct (db w) as [d|] eqn:Hd.
  2:{ by rewrite (create_alert_unavailable _ _ _ Hd Hoid). }
  rewrite (create_alert_run _ _ _ _ Hd Hoid). cbn zeta.
  destruct (find_documents d "user" [("_id", VOid oid)]) as [|user users] eqn:Hfind;
    [done |].
  intros _. by exists d, oid, user, users.
Qed.

Lemma list_alerts_outcome repr u w :
  fst (list_alerts repr u w) =
    match ObjectId_of_str u, db w with
    | None, _ => inl (HTTPException 400 "Invalid ID format")
    | Some _, None => inl StoreUnavailable
    | Some _, Some d =>
        inr (coerce_id repr <$> find_documents d "alert" [("user_id", VStr u)])
    end.
Proof.
  destruct (ObjectId_of_str u) as [oid|] eqn:Hoid.
  - destruct (db w) as [d|] eqn:Hd.
    + by rewrite (list_alerts_run repr _ _ _ _ Hd Hoid).
    + unfold list_alerts. run_monad.
      by rewrite (ensure_objectid_str_ok _ _ _ Hoid), (get_documents_unavailable _ _ _ Hd).
  - unfold list_alerts. run_monad. by rewrite (ensure_objectid_str_bad _ _ Hoid).
Qed.

(** X6. After an alert has been created, the alert listing for the
    [user_id] string of the request shows the records of the listing
    from before and one more: the new alert, whose ["_id"] is the
    [alert_id] that creation answered with and whose status is "active".
    The listing for any other string shows what it showed, also for a
    string that is the same identifier written in other letter case: the
    alert is stored and looked up under the string as it was given.
    Listings are compared up to the order of their records. *)
Theorem create_alert_then_list_alerts
    (repr : Value → string) (payload : CreateAlertRequest.t) (w : World) (resp : Doc) :
  fst (create_alert payload w) = inr resp →
  (∃ before after new,
     fst (list_alerts repr (CreateAlertRequest.user_id payload) w) = inr before
     ∧ fst (list_alerts repr (CreateAlertRequest.user_id payload)
                        (snd (create_alert payload w)))
       = inr after
     ∧ after ≡ₚ new :: before
     ∧ new !! "_id" = resp !! "alert_id"
     ∧ is_Some (resp !! "alert_id")
     ∧ new !! "status" = Some (VStr "active")
     ∧ new !! "user_id" = Some (VStr (CreateAlertRequest.user_id payload)))
  ∧ ∀ u, u ≠ CreateAlertRequest.user_id payload →
         same_listing (fst (list_alerts repr u (snd (create_alert payload w))))
                      (fst (list_alerts repr u w)).
Proof.
  intros Hok.
  destruct (create_alert_success_inv _ _ _ Hok) as (d & oid & user & users & Hd & Hoid & Hfind).
  revert Hok. rewrite (create_alert_run _ _ _ _ Hd Hoid). cbn zeta. rewrite Hfind.
  cbn [fst snd]. intros [= <-].
  set (new_doc := <["_id" := VOid (ObjectId_generate (next_oid w))]> (alert_data payload user)).
  assert (Hnew_user : new_doc !! "user_id" = Some (VStr (CreateAlertRequest.user_id payload))).
  { unfold new_doc, alert_data, dict. by simplify_map_eq. }
  assert (Hlist : ∀ u,
    find_documents (<["alert" := collection d "alert" ++ [new_doc]]> d)
                   "alert" [("user_id", VStr u)]
    = find_documents d "alert" [("user_id", VStr u)]
      ++ (if bool_decide (u = CreateAlertRequest.user_id payload) then [new_doc] else [])).
  { intros u. unfold find_documents. rewrite collection_insert, filter_app. f_equal.
    case_bool_decide as Hu.
    - subst u. rewrite filter_cons_True; [done |]. by apply matches_user_id.
    - rewrite filter_cons_False; [done |].
      rewrite matches_user_id, Hnew_user. congruence. }
  split.
  - exists (coerce_id repr <$> find_documents d "alert"
                                [("user_id", VStr (CreateAlertRequest.user_id payload))]),
           ((coerce_id repr <$> find_documents d "alert"
                                 [("user_id", VStr (CreateAlertRequest.user_id payload))])
            ++ [coerce_id repr new_doc]),
           (coerce_id repr new_doc).
    rewrite !list_alerts_outcome. cbn [db]. rewrite Hoid, Hd, Hlist.
    rewrite bool_decide_eq_true_2, fmap_app by done.
    split; [done |]. split; [done |].
    split; [by rewrite Permutation_app_comm |].
    repeat split; done.
  - intros u Hu. rewrite !list_alerts_outcome. cbn [db]. rewrite Hd.
    destruct (ObjectId_of_str u); [|done].
    rewrite Hlist, bool_decide_eq_false_2, app_nil_r by done.
    cbn [same_listing]. done.
Qed.

Lemma create_alert_then_list_alerts_sample :
  (∃ before after new,
     fst (list_alerts no_repr sample_user_id tiny_world) = inr before
     ∧ fst (list_alerts no_repr sample_user_id
              (snd (create_alert (CreateAlertRequest.mk sample_user_id None None)
                                 tiny_world)))
       = inr after
     ∧ after ≡ₚ new :: before
     ∧ new !! "_id" = Some (VStr "000000000000000000000003")
     ∧ new !! "status" = Some (VStr "active"))
  ∧ same_listing
      (fst (list_alerts no_repr "00000000000000000000000A"
              (snd (create_alert (CreateAlertRequest.mk sample_user_id None None)
                                 tiny_world))))
      (fst (list_alerts no_repr "00000000000000000000000A" tiny_world)).
Proof.
  destruct (create_alert_then_list_alerts no_repr
              (CreateAlertRequest.mk sample_user_id None None) tiny_world
              (dict [("alert_id", VStr "000000000000000000000003");
                     ("status", VStr "active")])
              ltac:(by_computation))
    as [(before & after & new & Hb & Ha & Hperm & Hid & _ & Hst & _) Hother].
  split.
  - exists before, after, new. split; [exact Hb |]. split; [exact Ha |].
    split; [exact Hperm |]. split; [exact Hid | exact Hst].
  - apply Hother. discriminate.
Defined.

(** ** Cancellation, further *)

(** What a successful cancellation has found and what it leaves. *)
Lemma cancel_alert_success_inv payload w resp :
  fst (cancel_alert payload w) = inr resp →
  ∃ d aid uid before alert after,
    db w = Some d
    ∧ ObjectId_of_str (CancelAlertRequest.alert_id payload) = Some aid
    ∧ find_documents d "alert" [("_id", VOid aid)]
      = alert :: filter (λ x, matches [("_id", VOid aid)] x = true) after
    ∧ collection d "alert" = before ++ alert :: after
    ∧ Forall (λ a, matches [("_id", VOid aid)] a = false) before
    ∧ matches [("_id", VOid aid)] alert = true
    ∧ accepted_id (next_oid w) (dict_get alert "user_id") = Some uid
    ∧ pin_blocks (head (find_documents d "user" [("_id", VOid uid)]))
                 (CancelAlertRequest.pin payload) = false
    ∧ resp = dict [("alert_id", VStr (CancelAlertRequest.alert_id payload));
                   ("status", VStr "canceled")]
    ∧ db (snd (cancel_alert payload w))
      = Some (<["alert" := before ++ <["status" := VStr "canceled"]> alert :: after]> d)
    ∧ next_oid (snd (cancel_alert payload w))
      = next_oid (after_id (dict_get alert "user_id") w).
Proof.
  destruct (ObjectId_of_str (CancelAlertRequest.alert_id payload)) as [aid|] eqn:Haid.
  2:{ by rewrite (cancel_alert_malformed _ _ Haid). }
  destruct (db w) as [d|] eqn:Hd.
  2:{ by rewrite (cancel_alert_unavailable _ _ _ Hd Haid). }
  destruct (find_documents d "alert" [("_id", VOid aid)]) as [|alert alerts] eqn:Hfind.
  { by rewrite (cancel_alert_not_found _ _ _ _ Hd Haid Hfind). }
  rewrite (cancel_alert_found _ _ _ _ _ _ Hd Haid Hfind). cbn zeta.
  destruct (accepted_id _ _) as [uid|] eqn:Huid; [|done].
  destruct (pin_blocks _ _) eqn:Hpin; [done |].
  cbn [fst snd db next_oid]. intros [= <-].
  destruct (update_first_found _ (apply_set [("status", VStr "canceled")]) _ _ _ Hfind)
    as (before & after & Hcoll & Hbefore & Halert & Hafter & Hupd).
  exists d, aid, uid, before, alert, after.
  rewrite Hupd, apply_set_status, <- Hafter.
  repeat split; try done. by destruct (dict_get alert "user_id").
Qed.

(** X7. Whatever the request and the world, a cancellation that fails
    fails with 400 "Invalid ID format", with the store unavailable, with
    404 "Alert not found" or with 403 "Invalid PIN", and leaves the
    database as it was. The 500 "Database not available" that the
    handler raises when [db] is [None] is never the answer: without a
    database the first read has already failed. A cancellation that
    succeeds answers with the [alert_id] string of the request and the
    status "canceled". *)
Theorem cancel_alert_outcomes (payload : CancelAlertRequest.t) (w : World) :
  match cancel_alert payload w with
  | (inl e, w') =>
      e ∈ [HTTPException 400 "Invalid ID format"; StoreUnavailable;
           HTTPException 404 "Alert not found"; HTTPException 403 "Invalid PIN"]
      ∧ e ≠ HTTPException 500 "Database not available"
      ∧ db w' = db w
  | (inr resp, w') =>
      resp = dict [("alert_id", VStr (CancelAlertRequest.alert_id payload));
                   ("status", VStr "canceled")]
      ∧ is_Some (db w)
  end.
Proof.
  destruct (ObjectId_of_str (CancelAlertRequest.alert_id payload)) as [aid|] eqn:Haid.
  2:{ rewrite (cancel_alert_malformed _ _ Haid). split; [set_solver | done]. }
  destruct (db w) as [d|] eqn:Hd.
  2:{ rewrite (cancel_alert_unavailable _ _ _ Hd Haid). split; [set_solver | done]. }
  destruct (find_documents d "alert" [("_id", VOid aid)]) as [|alert alerts] eqn:Hfind.
  { rewrite (cancel_alert_not_found _ _ _ _ Hd Haid Hfind).
    split; [set_solver | by rewrite <- Hd]. }
  rewrite (cancel_alert_found _ _ _ _ _ _ Hd Haid Hfind). cbn zeta.
  destruct (accepted_id _ _) as [uid|].
  - destruct (pin_blocks _ _).
    + split; [set_solver |]. split; [done |].
      cbn [logged db]. by rewrite after_id_db.
    + split; [done | by rewrite <- Hd].
  - split; [set_solver | by rewrite <- Hd].
Qed.

Lemma accepted_id_next n n' v :
  v ≠ VNone → accepted_id n v = accepted_id n' v.
Proof. by destruct v. Qed.

(** X8. Cancelling twice is cancelling once. If a cancellation
    succeeds, and the alert has something under ["user_id"], the same
    request made again succeeds with the same answer and leaves the
    database exactly as the first one left it. *)
Theorem cancel_alert_twice
    (payload : CancelAlertRequest.t) (w : World) (resp : Doc)
    (d0 : Database) (aid0 : ObjectId) (alert0 : Doc) (alerts0 : list Doc) :
  db w = Some d0 →
  ObjectId_of_str (CancelAlertRequest.alert_id payload) = Some aid0 →
  find_documents d0 "alert" [("_id", VOid aid0)] = alert0 :: alerts0 →
  dict_get alert0 "user_id" ≠ VNone →
  fst (cancel_alert payload w) = inr resp →
  fst (cancel_alert payload (snd (cancel_alert payload w))) = inr resp
  ∧ db (snd (cancel_alert payload (snd (cancel_alert payload w))))
    = db (snd (cancel_alert payload w)).
Proof.
  intros Hd0 Haid0 Hfind0 Howner Hok.
  destruct (cancel_alert_success_inv _ _ _ Hok)
    as (d & aid & uid & before & alert & after & Hd & Haid & Hfind & Hcoll & Hbefore
        & Halert & Huid & Hpin & -> & Hdb' & Hnext').
  assert (d0 = d) as -> by congruence.
  assert (aid0 = aid) as -> by congruence.
  assert (alert0 = alert) as -> by congruence.
  clear Hd0 Haid0 Hfind0.
  set (w1 := snd (cancel_alert payload w)) in *.
  set (alert' := <["status" := VStr "canceled"]> alert) in *.
  set (d1 := <["alert" := before ++ alert' :: after]> d) in *.
  assert (Hfind1 : find_documents d1 "alert" [("_id", VOid aid)]
                   = alert' :: filter (λ x, matches [("_id", VOid aid)] x = true) after).
  { unfold find_documents, d1. rewrite collection_insert, filter_app.
    rewrite filter_none_matching, filter_cons_True; [done | | done].
    unfold alert'. by rewrite matches_id_insert_status. }
  assert (Hacc : accepted_id (next_oid w1) (dict_get alert' "user_id") = Some uid).
  { unfold alert'. rewrite dict_get_insert_ne by done.
    by rewrite (accepted_id_next _ (next_oid w) _ Howner). }
  assert (Husers : find_documents d1 "user" [("_id", VOid uid)]
                   = find_documents d "user" [("_id", VOid uid)]).
  { unfold find_documents, d1. by rewrite collection_insert_ne. }
  rewrite (cancel_alert_found w1 d1 payload aid alert' _ Hdb' Haid Hfind1). cbn zeta.
  rewrite Hacc, Husers, Hpin. cbn [fst snd db]. split; [done |].
  rewrite Hdb'. f_equal.
  replace (collection d1 "alert") with (before ++ alert' :: after)
    by (unfold d1; by rewrite collection_insert).
  destruct (update_first_found [("_id", VOid aid)]
              (apply_set [("status", VStr "canceled")])
              (before ++ alert' :: after) alert'
              (filter (λ x, matches [("_id", VOid aid)] x = true) after))
    as (before' & after' & Hsplit & Hbefore' & _ & _ & Hupd).
  { fold (find_documents d1 "alert" [("_id", VOid aid)]) in Hfind1.
    unfold find_documents, d1 in Hfind1. by rewrite collection_insert in Hfind1. }
  rewrite Hupd, apply_set_status.
  assert (Hsame : before' = before ∧ after' = after).
  { clear -Hsplit Hbefore Hbefore' Halert.
    assert (Halert' : matches [("_id", VOid aid)] alert' = true)
      by (unfold alert'; by rewrite matches_id_insert_status).
    revert before' Hsplit Hbefore'.
    induction Hbefore as [|b before Hb _ IH]; intros before' Hsplit Hbefore'.
    - destruct before' as [|b' before']; [by injection Hsplit as -> |].
      injection Hsplit as <- _. inversion Hbefore'; congruence.
    - destruct before' as [|b' before'].
      + injection Hsplit as -> _. congruence.
      + injection Hsplit as <- Hsplit. inversion Hbefore'; subst.
        destruct (IH _ Hsplit) as [-> ->]; done. }
  destruct Hsame as [-> ->]. unfold d1, alert'. by rewrite !insert_insert_eq.
Qed.

Lemma cancel_alert_twice_sample :
  fst (cancel_alert (CancelAlertRequest.mk "000000000000000000000002" (Some "1234"))
         (snd (cancel_alert (CancelAlertRequest.mk "000000000000000000000002" (Some "1234"))
                            tiny_world)))
  = inr (dict [("alert_id", VStr "000000000000000000000002"); ("status", VStr "canceled")])
  ∧ db (snd (cancel_alert (CancelAlertRequest.mk "000000000000000000000002" (Some "1234"))
          (snd (cancel_alert (CancelAlertRequest.mk "000000000000000000000002" (Some "1234"))
                             tiny_world))))
    = db (snd (cancel_alert (CancelAlertRequest.mk "000000000000000000000002" (Some "1234"))
                            tiny_world)).
Proof.
  apply (cancel_alert_twice
           (CancelAlertRequest.mk "000000000000000000000002" (Some "1234")) tiny_world
           (dict [("alert_id", VStr "000000000000000000000002");
                  ("status", VStr "canceled")])
           tiny_db (ObjectId_generate 2) tiny_alert []);
    try by_computation.
  vm_compute. discriminate.
Defined.

Lemma Forall2_same_or {A} (f : A → A) (l : list A) :
  Forall2 (λ b a, a = b ∨ a = f b) l l.
Proof. induction l; constructor; auto. Qed.

(** X9. A cancellation changes no alert listing except in the status
    it shows. For every [user_id] string, the listing after a successful
    cancellation has the records of the listing before, each as it was
    or with ["status"] set to "canceled", the order of the records
    apart; and a listing that failed before fails in the same way
    after. *)
Theorem cancel_alert_then_list_alerts
    (repr : Value → string) (payload : CancelAlertRequest.t) (w : World)
    (resp : Doc) (u : string) :
  fst (cancel_alert payload w) = inr resp →
  match fst (list_alerts repr u w),
        fst (list_alerts repr u (snd (cancel_alert payload w))) with
  | inr before, inr after => canceled_in before after
  | inl e, inl e' => e = e'
  | _, _ => False
  end.
Proof.
  intros Hok.
  destruct (cancel_alert_success_inv _ _ _ Hok)
    as (d & aid & uid & before & alert & after & Hd & Haid & Hfind & Hcoll & Hbefore
        & Halert & Huid & Hpin & -> & Hdb' & Hnext').
  rewrite !list_alerts_outcome, Hd, Hdb'.
  destruct (ObjectId_of_str u); [|done].
  eexists. split; [reflexivity |].
  unfold find_documents. rewrite collection_insert, Hcoll, !filter_app, !fmap_app.
  apply Forall2_app; [apply Forall2_same_or |].
  assert (Hsame : matches [("user_id", VStr u)] (<["status" := VStr "canceled"]> alert)
                  = matches [("user_id", VStr u)] alert).
  { unfold matches. cbn [forallb fst snd]. by rewrite lookup_insert_ne. }
  destruct (matches [("user_id", VStr u)] alert) eqn:Hm.
  - rewrite !filter_cons_True by congruence. cbn [fmap list_fmap].
    constructor; [|apply Forall2_same_or].
    right. unfold coerce_id. rewrite lookup_insert_ne by done.
    by rewrite insert_insert_ne.
  - rewrite !filter_cons_False by congruence. apply Forall2_same_or.
Qed.

Lemma cancel_alert_then_list_alerts_sample :
  match fst (list_alerts no_repr sample_user_id tiny_world),
        fst (list_alerts no_repr sample_user_id
               (snd (cancel_alert
                       (CancelAlertRequest.mk "000000000000000000000002" (Some "1234"))
                       tiny_world))) with
  | inr before, inr after => canceled_in before after
  | inl e, inl e' => e = e'
  | _, _ => False
  end.
Proof.
  apply (cancel_alert_then_list_alerts no_repr
           (CancelAlertRequest.mk "000000000000000000000002" (Some "1234")) tiny_world
           (dict [("alert_id", VStr "000000000000000000000002");
                  ("status", VStr "canceled")])
           sample_user_id).
  by_computation.
Defined.

(** ** Registration, further *)

Lemma for_each_contacts_calls user_id cs : ∀ w d,
  db w = Some d →
  calls (snd (for_each cs (insert_contact user_id) w))
  = calls w ++ ((λ c, CallCreate "contact" (contact_document user_id c)) <$> cs)
  ∧ next_oid (snd (for_each cs (insert_contact user_id) w))
    = (next_oid w + N.of_nat (length cs))%N.
Proof.
  induction cs as [|c cs IH]; intros w d Hd.
  - cbn. by rewrite app_nil_r, N.add_0_r.
  - cbn [for_each]. rewrite bind_run, (insert_contact_run _ _ _ _ Hd).
    edestruct (IH (mkWorld
                (Some (<["contact" := collection d "contact" ++
                   [<["_id" := VOid (ObjectId_generate (next_oid w))]>
                      (contact_document user_id c)]]> d))
                (next_oid w + 1)
                (calls w ++ [CallCreate "contact" (contact_document user_id c)])))
      as [Hcalls Hnext]; [done |].
    rewrite Hcalls, Hnext. cbn [calls next_oid fmap list_fmap length].
    split; [by rewrite <- app_assoc | lia].
Qed.

(** X10. On a connected store, registration issues one create for the
    user and then one create per submitted contact, in the order
    submitted, each contact being sent with the identifier of the new
    user under ["user_id"]; it reads nothing. With [contacts] absent,
    null or empty the user create is the only call. One identifier is
    consumed per document, and the answer carries the first. *)
Theorem register_user_store_calls
    (payload : RegisterUserRequest.t) (w : World) (d : Database) :
  db w = Some d →
  let user_id := ObjectId_str (ObjectId_generate (next_oid w)) in
  let submitted := default [] (RegisterUserRequest.contacts payload) in
  fst (register_user payload w) = inr (dict [("user_id", VStr user_id)])
  ∧ calls (snd (register_user payload w))
    = calls w
      ++ CallCreate "user" (dict (RegisterUserRequest.model_dump payload))
         :: ((λ c, CallCreate "contact" (contact_document user_id c)) <$> submitted)
  ∧ next_oid (snd (register_user payload w))
    = (next_oid w + 1 + N.of_nat (length submitted))%N.
Proof.
  intros Hd user_id submitted. unfold register_user. run_monad.
  rewrite (create_document_run _ _ _ _ Hd). fold user_id.
  set (w1 := mkWorld _ _ _).
  assert (Hnone : fst (@inr Exn Doc (dict [("user_id", VStr user_id)]), w1)
                  = inr (dict [("user_id", VStr user_id)])
    ∧ calls (snd (@inr Exn Doc (dict [("user_id", VStr user_id)]), w1))
      = calls w ++ CallCreate "user" (dict (RegisterUserRequest.model_dump payload))
                   :: ((λ c, CallCreate "contact" (contact_document user_id c)) <$> [])
    ∧ next_oid (snd (@inr Exn Doc (dict [("user_id", VStr user_id)]), w1))
      = (next_oid w + 1 + N.of_nat 0)%N).
  { cbn. split; [done |]. split; [done | lia]. }
  unfold submitted.
  destruct (RegisterUserRequest.contacts payload) as [[|c cs]|]; try exact Hnone.
  clear Hnone. cbn [default].
  destruct (for_each_contacts user_id (c :: cs) w1 _ eq_refl)
    as (d' & trace & Hrun & _ & _).
  destruct (for_each_contacts_calls user_id (c :: cs) w1 _ eq_refl) as [Hcalls Hnext].
  rewrite Hrun in Hcalls, Hnext |- *. cbn [fst snd calls next_oid] in *.
  split; [done |]. rewrite Hcalls. unfold w1. cbn [calls next_oid].
  by rewrite <- app_assoc.
Qed.

Lemma register_user_store_calls_sample :
  fst (register_user sample_payload empty_world)
  = inr (dict [("user_id", VStr sample_user_id)])
  ∧ calls (snd (register_user sample_payload empty_world))
    = [] ++ CallCreate "user" (dict (RegisterUserRequest.model_dump sample_payload))
            :: ((λ c, CallCreate "contact" (contact_document sample_user_id c))
                <$> [Contact.mk "x" "B" None None; Contact.mk "y" "C" (Some "1") None])
  ∧ next_oid (snd (register_user sample_payload empty_world)) = 3%N.
Proof.
  apply (register_user_store_calls sample_payload empty_world ∅).
  by_computation.
Defined.

Lemma matches_own_id oid (doc : Doc) :
  matches [("_id", VOid oid)] (<["_id" := VOid oid]> doc) = true.
Proof.
  unfold matches. cbn [forallb fst snd]. rewrite lookup_insert_eq. cbn.
  by rewrite bool_decide_eq_true_2.
Qed.

Lemma find_documents_appended d c flt doc (d' : Database) :
  collection d' c = collection d c ++ [doc] →
  find_documents d c flt = [] →
  matches flt doc = true →
  find_documents d' c flt = [doc].
Proof.
  intros Hcoll Hnone Hdoc. unfold find_documents in *.
  by rewrite Hcoll, filter_app, Hnone, filter_cons_True.
Qed.

Lemma validate_User_fields_inv EmailStr at_ m u :
  validate_User_fields EmailStr at_ m = inr u →
  required_str (at_ ++ [Field "name"]) (member "name" m) = inr (User.name u)
  ∧ required_str (at_ ++ [Field "phone"]) (member "phone" m) = inr (User.phone u)
  ∧ defaulted_str DEFAULT_MESSAGE (at_ ++ [Field "default_message"])
                  (member "default_message" m) = inr (User.default_message u)
  ∧ optional_str (at_ ++ [Field "pin"]) (member "pin" m) = inr (User.pin u).
Proof.
  unfold validate_User_fields.
  destruct (required_str _ (member "name" m)), (required_str _ (member "phone" m)),
    (optional_email _ _ (member "email" m)), (defaulted_str _ _ _), (optional_str _ _);
    cbn; try done.
  by intros [= <-].
Qed.

Lemma validate_RegisterUserRequest_inv EmailStr body payload :
  validate_RegisterUserRequest EmailStr body = inr payload →
  ∃ m, body = JObject m
       ∧ validate_User_fields EmailStr [Field "body"] m
         = inr (RegisterUserRequest.user payload).
Proof.
  destruct body as [| | | |?|m]; try done. unfold validate_RegisterUserRequest.
  destruct (validate_User_fields _ _ m) eqn:Hu, (optional_contacts _ _ _);
    cbn; try done.
  intros [= <-]. by exists m.
Qed.

(** X11. The schema decides what is missing and what is defaulted. A
    registration body that is not an object, or whose ["name"] or
    ["phone"] is absent or is not a string, is answered 422 and the
    world is left as it was. In a body that is accepted, an absent
    ["default_message"] becomes the fixed sentence and a given one is
    kept, and an absent or null ["pin"] is no pin. *)
Theorem register_schema_fields
    (EmailStr : string → option string) (body : JSON) (w : World) :
  match validate_RegisterUserRequest EmailStr body with
  | inl errors =>
      post_register EmailStr body w = (inl (RequestValidationError errors), w)
  | inr payload =>
      ∃ m name phone,
        body = JObject m
        ∧ member "name" m = Some (JString name)
        ∧ member "phone" m = Some (JString phone)
        ∧ User.name (RegisterUserRequest.user payload) = name
        ∧ User.phone (RegisterUserRequest.user payload) = phone
        ∧ User.default_message (RegisterUserRequest.user payload)
          = match member "default_message" m with
            | Some (JString s) => s
            | _ => DEFAULT_MESSAGE
            end
        ∧ (member "default_message" m = None
           ∨ ∃ s, member "default_message" m = Some (JString s))
        ∧ User.pin (RegisterUserRequest.user payload)
          = match member "pin" m with
            | Some (JString s) => Some s
            | _ => None
            end
  end.
Proof.
  destruct (validate_RegisterUserRequest EmailStr body) as [errors|payload] eqn:Hv.
  - unfold post_register. by rewrite Hv.
  - destruct (validate_RegisterUserRequest_inv _ _ _ Hv) as (m & -> & Hu).
    destruct (validate_User_fields_inv _ _ _ _ Hu) as (Hname & Hphone & Hdm & Hpin).
    exists m, (User.name (RegisterUserRequest.user payload)),
           (User.phone (RegisterUserRequest.user payload)).
    split; [done |].
    destruct (member "name" m) as [[]|]; try done. injection Hname as Hname.
    destruct (member "phone" m) as [[]|]; try done. injection Hphone as Hphone.
    subst. do 4 (split; [done |]).
    split; [|split].
    + destruct (member "default_message" m) as [[]|]; try done; by injection Hdm.
    + destruct (member "default_message" m) as [[]|]; try done; eauto.
    + destruct (member "pin" m) as [[]|]; try done; by injection Hpin.
Qed.

(** ** Registration, alert and cancellation in sequence *)

Lemma post_register_run EmailStr body payload w d :
  validate_RegisterUserRequest EmailStr body = inr payload →
  db w = Some d →
  find_documents d "user" [("_id", VOid (ObjectId_generate (next_oid w)))] = [] →
  ∃ d1 trace,
    post_register EmailStr body w
    = (inr (dict [("user_id", VStr (ObjectId_str (ObjectId_generate (next_oid w))))]),
       mkWorld (Some d1)
               (next_oid w + 1
                + N.of_nat (length (default [] (RegisterUserRequest.contacts payload))))
               trace)
    ∧ find_documents d1 "user" [("_id", VOid (ObjectId_generate (next_oid w)))]
      = [<["_id" := VOid (ObjectId_generate (next_oid w))]>
           (dict (RegisterUserRequest.model_dump payload))]
    ∧ collection d1 "alert" = collection d "alert".
Proof.
  intros Hvalid Hd Hfresh. unfold post_register. rewrite Hvalid.
  destruct (register_user_run w d payload Hd)
    as (d1 & trace & Hrun & Huser & _ & Hother).
  exists d1, trace. split; [exact Hrun |]. split.
  - eapply find_documents_appended; [exact Huser | exact Hfresh |].
    apply matches_own_id.
  - by apply Hother.
Qed.

Lemma user_document_lookup oid payload :
  let doc := <["_id" := VOid oid]> (dict (RegisterUserRequest.model_dump payload)) in
  doc !! "default_message"
  = Some (VStr (User.default_message (RegisterUserRequest.user payload)))
  ∧ dict_get doc "pin" = of_optional VStr (User.pin (RegisterUserRequest.user payload))
  ∧ doc ≠ ∅.
Proof.
  cbn zeta. unfold dict_get, dict, RegisterUserRequest.model_dump, User.model_dump.
  cbn [app list_to_map foldr fst snd].
  split; [by simplify_map_eq |]. split; [by simplify_map_eq |].
  intros Hempty. apply (f_equal (λ m : Doc, m !! "_id")) in Hempty.
  by rewrite lookup_insert_eq, lookup_empty in Hempty.
Qed.

(** X12. A user registered through the endpoint always has a default
    message, so an alert created for that user without a message carries
    it: the one given at registration, or the fixed sentence when none
    was given. Taken is a body the schema accepts, a connected store,
    and an identifier about to be generated that no user document has
    yet. *)
Theorem register_then_create_alert
    (EmailStr : string → option string) (body : JSON)
    (payload : RegisterUserRequest.t) (w : World) (d : Database)
    (location : option Location.t) :
  validate_RegisterUserRequest EmailStr body = inr payload →
  db w = Some d →
  find_documents d "user" [("_id", VOid (ObjectId_generate (next_oid w)))] = [] →
  let user_id := ObjectId_str (ObjectId_generate (next_oid w)) in
  let w1 := snd (post_register EmailStr body w) in
  let request := CreateAlertRequest.mk user_id None location in
  ∃ alert d2,
    fst (create_alert request w1)
    = inr (dict [("alert_id", VStr (ObjectId_str (ObjectId_generate (next_oid w1))));
                 ("status", VStr "active")])
    ∧ db (snd (create_alert request w1)) = Some d2
    ∧ collection d2 "alert" = collection d "alert" ++ [alert]
    ∧ alert !! "user_id" = Some (VStr user_id)
    ∧ alert !! "message"
      = Some (VStr (User.default_message (RegisterUserRequest.user payload))).
Proof.
  intros Hvalid Hd Hfresh user_id w1 request.
  destruct (post_register_run _ _ _ _ _ Hvalid Hd Hfresh)
    as (d1 & trace & Hrun & Huser & Halerts).
  unfold w1. rewrite Hrun. cbn [snd].
  erewrite create_alert_run; [| done | apply ObjectId_of_str_generate].
  cbn zeta. rewrite Huser. cbn [fst snd db next_oid].
  eexists _, _. split; [done |]. split; [done |].
  rewrite collection_insert, Halerts. split; [done |].
  destruct (user_document_lookup (ObjectId_generate (next_oid w)) payload)
    as (Hmessage & _ & _).
  split.
  - rewrite lookup_insert_ne by done. unfold alert_data, dict. by simplify_map_eq.
  - rewrite lookup_insert_ne by done. unfold alert_data, dict.
    cbn [list_to_map foldr fst snd]. rewrite lookup_insert_ne, lookup_insert_eq by done.
    unfold py_or, dict_get_default, request.
    cbn [CreateAlertRequest.message of_optional truthy].
    unfold dict in Hmessage. by rewrite Hmessage.
Qed.

(** The payload the schema makes of [body_with_pin "1234"]. *)
Lemma register_then_create_alert_sample :
  let payload :=
    RegisterUserRequest.mk (User.mk "A" "555" None DEFAULT_MESSAGE (Some "1234")) None in
  let user_id := ObjectId_str (ObjectId_generate (next_oid empty_world)) in
  let w1 := snd (post_register any_address (body_with_pin "1234") empty_world) in
  let request := CreateAlertRequest.mk user_id None None in
  ∃ alert d2,
    fst (create_alert request w1)
    = inr (dict [("alert_id", VStr (ObjectId_str (ObjectId_generate (next_oid w1))));
                 ("status", VStr "active")])
    ∧ db (snd (create_alert request w1)) = Some d2
    ∧ collection d2 "alert" = collection ∅ "alert" ++ [alert]
    ∧ alert !! "user_id" = Some (VStr user_id)
    ∧ alert !! "message"
      = Some (VStr (User.default_message (RegisterUserRequest.user payload))).
Proof.
  intros payload.
  apply (register_then_create_alert any_address (body_with_pin "1234") payload
           empty_world ∅ None);
    by_computation.
Defined.

(** X13. Registration, alert and cancellation end to end. A user
    registers with a non-empty PIN and raises an alert; a cancellation
    of that alert succeeds when it gives exactly that PIN, and is
    answered 403 "Invalid PIN" when it gives another or none. Taken is a
    connected store in which the identifiers about to be generated for
    the user and for the alert are not in use. *)
Theorem register_alert_cancel
    (EmailStr : string → option string) (body : JSON)
    (payload : RegisterUserRequest.t) (w : World) (d : Database)
    (pin : string) (message : option string) (location : option Location.t)
    (attempt : option string) :
  validate_RegisterUserRequest EmailStr body = inr payload →
  User.pin (RegisterUserRequest.user payload) = Some pin →
  pin ≠ "" →
  db w = Some d →
  find_documents d "user" [("_id", VOid (ObjectId_generate (next_oid w)))] = [] →
  let w1 := snd (post_register EmailStr body w) in
  find_documents d "alert" [("_id", VOid (ObjectId_generate (next_oid w1)))] = [] →
  let user_id := ObjectId_str (ObjectId_generate (next_oid w)) in
  let alert_id := ObjectId_str (ObjectId_generate (next_oid w1)) in
  let w2 := snd (create_alert (CreateAlertRequest.mk user_id message location) w1) in
  fst (cancel_alert (CancelAlertRequest.mk alert_id attempt) w2)
  = if bool_decide (attempt = Some pin)
    then inr (dict [("alert_id", VStr alert_id); ("status", VStr "canceled")])
    else inl (HTTPException 403 "Invalid PIN").
Proof.
  intros Hvalid Hpin Hne Hd Hfresh. cbn zeta.
  destruct (post_register_run _ _ _ _ _ Hvalid Hd Hfresh)
    as (d1 & trace & Hrun & Huser & Halerts).
  rewrite Hrun. cbn [snd next_oid].
  set (n1 := (next_oid w + 1 + N.of_nat _)%N).
  intros Hfresh_alert.
  set (user_id := ObjectId_str (ObjectId_generate (next_oid w))).
  set (udoc := <["_id" := VOid (ObjectId_generate (next_oid w))]>
                 (dict (RegisterUserRequest.model_dump payload))) in *.
  erewrite create_alert_run; [| done | apply ObjectId_of_str_generate].
  cbn zeta. rewrite Huser. cbn [snd next_oid].
  set (w2 := mkWorld _ _ _).
  set (request := CreateAlertRequest.mk user_id message location) in *.
  set (adoc := <["_id" := VOid (ObjectId_generate n1)]> (alert_data request udoc)) in *.
  set (d2 := <["alert" := collection d1 "alert" ++ [adoc]]> d1) in *.
  assert (Hfind_alert : find_documents d2 "alert" [("_id", VOid (ObjectId_generate n1))]
                        = [adoc]).
  { eapply (find_documents_appended d1); [| |apply matches_own_id].
    - unfold d2. by rewrite collection_insert.
    - unfold find_documents in *. by rewrite Halerts. }
  assert (Hfind_user : find_documents d2 "user"
                         [("_id", VOid (ObjectId_generate (next_oid w)))] = [udoc]).
  { rewrite <- Huser. unfold find_documents, d2. by rewrite collection_insert_ne. }
  assert (Howner : dict_get adoc "user_id" = VStr user_id).
  { unfold dict_get, adoc, alert_data, dict, request. by simplify_map_eq. }
  erewrite (cancel_alert_found w2 d2 _ (ObjectId_generate n1) adoc []);
    [| done | apply ObjectId_of_str_generate | exact Hfind_alert].
  cbn zeta. rewrite Howner. cbn [accepted_id]. unfold user_id.
  rewrite ObjectId_of_str_generate, Hfind_user. cbn [head pin_blocks].
  destruct (user_document_lookup (ObjectId_generate (next_oid w)) payload)
    as (_ & Hstored & Hnonempty).
  fold udoc in Hstored, Hnonempty. rewrite Hstored, Hpin. cbn [of_optional truthy].
  rewrite (bool_decide_eq_false_2 _ Hnonempty), (bool_decide_eq_false_2 _ Hne).
  rewrite (pin_rejected_stored _ _ Hne).
  cbn [negb andb CancelAlertRequest.pin CancelAlertRequest.alert_id].
  by case_bool_decide.
Qed.

Lemma register_alert_cancel_sample :
  let w1 := snd (post_register any_address (body_with_pin "1234") empty_world) in
  let user_id := ObjectId_str (ObjectId_generate (next_oid empty_world)) in
  let alert_id := ObjectId_str (ObjectId_generate (next_oid w1)) in
  let w2 := snd (create_alert (CreateAlertRequest.mk user_id None None) w1) in
  fst (cancel_alert (CancelAlertRequest.mk alert_id (Some "0000")) w2)
  = (if bool_decide (Some "0000" = Some "1234")
     then inr (dict [("alert_id", VStr alert_id); ("status", VStr "canceled")])
     else inl (HTTPException 403 "Invalid PIN")).
Proof.
  intros w1 user_id alert_id w2.
  apply (register_alert_cancel any_address (body_with_pin "1234")
           (RegisterUserRequest.mk (User.mk "A" "555" None DEFAULT_MESSAGE (Some "1234"))
                                   None)
           empty_world ∅ "1234" None None (Some "0000"));
    first [by_computation | discriminate].
Defined.

(** ** The diagnostic endpoint *)

(** X14. In the answer of GET /test, ["database_url"] and
    ["database_name"] say only whether the two environment variables
    are set to a non-empty value: what was written there for a connected
    database, "Configured" and the name of the database, is overwritten
    before the answer is returned. ["backend"] is always "Running". *)
Theorem test_database_reports_environment
    (db : option Handle) (getenv : string → option string) :
  test_database db getenv !! "database_url"
  = Some (VStr (if env_is_set getenv "DATABASE_URL" then "✅ Set" else "❌ Not Set"))
  ∧ test_database db getenv !! "database_name"
    = Some (VStr (if env_is_set getenv "DATABASE_NAME" then "✅ Set" else "❌ Not Set"))
  ∧ test_database db getenv !! "backend" = Some (VStr "✅ Running")
  ∧ (∀ db', test_database db' getenv !! "database_url"
            = test_database db getenv !! "database_url"
            ∧ test_database db' getenv !! "database_name"
              = test_database db getenv !! "database_name").
Proof.
  assert (H : ∀ db0,
    test_database db0 getenv !! "database_url"
    = Some (VStr (if env_is_set getenv "DATABASE_URL" then "✅ Set" else "❌ Not Set"))
    ∧ test_database db0 getenv !! "database_name"
      = Some (VStr (if env_is_set getenv "DATABASE_NAME" then "✅ Set" else "❌ Not Set"))
    ∧ test_database db0 getenv !! "backend" = Some (VStr "✅ Running")).
  { intros [[name [e|names]]|]; unfold test_database, dict; cbn zeta;
      repeat split; by simplify_map_eq. }
  destruct (H db) as (Hurl & Hname & Hbackend).
  do 3 (split; [done |]). intros db'.
  destruct (H db') as (Hurl' & Hname' & _). by rewrite Hurl', Hname', Hurl, Hname.
Qed.

Lemma str_len_take n s : str_len (str_take n s) = (str_len s `min` n)%nat.
Proof.
  revert n. induction s as [|c s IH]; intros n; [done |].
  cbn [str_take str_len]. destruct (is_continuation c) eqn:Hc.
  - cbn [str_len]. by rewrite Hc, IH.
  - destruct n as [|n]; cbn [str_len]; [lia |]. rewrite Hc, IH. lia.
Qed.

Lemma str_take_prefix n s : ∃ rest, s = str_take n s +:+ rest.
Proof.
  revert n. induction s as [|c s IH]; intros n; [by exists "" |].
  cbn [str_take]. destruct (is_continuation c).
  - destruct (IH n) as [rest Hrest]. exists rest.
    change (String c s = String c (str_take n s +:+ rest)). by f_equal.
  - destruct n as [|n]; [by exists (String c s) |].
    destruct (IH n) as [rest Hrest]. exists rest.
    change (String c s = String c (str_take n s +:+ rest)). by f_equal.
Qed.

(** The cut counts characters, not bytes: a letter with an accent and
    the check mark take two and three bytes. *)
Lemma str_take_sample :
  str_take 3 "é✅ab" = "é✅a" ∧ str_len "é✅ab" = 4%nat
  ∧ String.length "é✅ab" = 7%nat.
Proof. repeat split. Qed.

(** X15. The connection part of the answer of GET /test. Without a
    database the answer says "Not Connected" and lists no collection.
    With one it says "Connected"; when the listing of collections
    succeeds the answer carries the first ten names, in order, and no
    more, and says "Connected & Working"; when the listing raises, the
    answer carries no collection and the first fifty characters of the
    text of the error, all of it when it has fewer. The endpoint itself
    never fails. *)
Theorem test_database_reports_connection
    (db : option Handle) (getenv : string → option string) :
  match db with
  | None =>
      test_database db getenv !! "connection_status" = Some (VStr "Not Connected")
      ∧ test_database db getenv !! "collections" = Some (VList [])
      ∧ test_database db getenv !! "database"
        = Some (VStr "⚠️  Available but not initialized")
  | Some handle =>
      test_database db getenv !! "connection_status" = Some (VStr "Connected")
      ∧ match list_collection_names handle with
        | inr names =>
            ∃ shown,
              test_database db getenv !! "collections" = Some (VList (VStr <$> shown))
              ∧ shown `prefix_of` names
              ∧ length shown = (length names `min` 10)%nat
              ∧ test_database db getenv !! "database"
                = Some (VStr "✅ Connected & Working")
        | inl e =>
            test_database db getenv !! "collections" = Some (VList [])
            ∧ ∃ shown rest,
                test_database db getenv !! "database"
                = Some (VStr ("⚠️  Connected but Error: " +:+ shown))
                ∧ e = shown +:+ rest
                ∧ str_len shown = (str_len e `min` 50)%nat
                ∧ shown = str_take 50 e
        end
  end.
Proof.
  destruct db as [[name [e|names]]|]; unfold test_database, dict; cbn zeta;
    cbn [list_collection_names handle_name].
  - split; [by simplify_map_eq |]. split; [by simplify_map_eq |].
    destruct (str_take_prefix 50 e) as [rest Hrest].
    exists (str_take 50 e), rest. split; [by simplify_map_eq |].
    split; [exact Hrest |]. split; [apply str_len_take | done].
  - split; [by simplify_map_eq |].
    exists (take 10 names). split; [by simplify_map_eq |].
    split; [apply prefix_take |]. split; [rewrite length_take; lia |].
    by simplify_map_eq.
  - repeat split; by simplify_map_eq.
Qed.
